(** * Lead generation API: the request handlers of handlers.js and the routes of index.js

    A shallow embedding of the three handlers ([googleSearchHandler],
    [createSpreadsheetHandler], [exportToExcelHandler]) and of the two composite
    routes that chain them, followed by the properties of the written
    specification that concern them.

    Conventions of the embedding.
    - A JavaScript value is a [jsval]; numbers are the integer-valued ones
      (for |n| < 2^53 the quotient n / 10 computed in floating point has the
      same ceiling as the exact quotient, so [Z] arithmetic is exact here).
    - A handler is a function of the process environment and the request
      body.  It returns what it passed to the response object together with
      the list of outside calls it issued, in order ([run]).
    - The outside world (search API, Sheets and Drive APIs, the URL and JSON
      parsers of the runtime, the XLSX encoder, the header check of the
      response object, the clock) is a set of section variables: every result
      holds whatever these answer, a throw included.
    - In the bodies of the search and of the composite routes jobTitle,
      location and the names are absent or strings, maxResults is absent or
      an integer: other JSON values in these fields are outside the
      embedding. *)

From Stdlib Require Import ZArith List String Ascii Bool Lia.
Import ListNotations.

Set Warnings "-register-all".

Open Scope string_scope.
Open Scope list_scope.
Open Scope Z_scope.

(** ** JavaScript values *)

Inductive jsval : Type :=
| VUndefined
| VNull
| VBool (b : bool)
| VNum (n : Z)
| VStr (s : string)
| VArr (elems : list jsval)
| VObj (props : list (string * jsval))
| VFun (name : string).

(** ToBoolean: what [!v], [v || w], [v && w] and [v ? a : b] test. *)
Definition truthy (v : jsval) : bool :=
  match v with
  | VUndefined | VNull => false
  | VBool b => b
  | VNum n => negb (n =? 0)
  | VStr s => negb (s =? "")%string
  | VArr _ | VObj _ | VFun _ => true
  end.

(** An environment variable or a body field that is absent or a string. *)
Definition truthy_str (o : option string) : bool :=
  match o with
  | None => false
  | Some s => negb (s =? "")%string
  end.

(** [v || w] *)
Definition js_or (v w : jsval) : jsval := if truthy v then v else w.

(** [Array.isArray(v)] *)
Definition isArray (v : jsval) : bool :=
  match v with VArr _ => true | _ => false end.

(** A string inside a template literal: [`${o}`]. *)
Definition template (o : option string) : string :=
  match o with None => "undefined" | Some s => s end.

(** The value of property [k] of an object: its first binding in the list,
    undefined when there is none. *)
Fixpoint lookup_prop (k : string) (props : list (string * jsval)) : jsval :=
  match props with
  | [] => VUndefined
  | (k', v) :: rest => if (k =? k')%string then v else lookup_prop k rest
  end.

(** ** Errors and the calls a handler issues *)

(** The value of a response header: a string or a number. *)
Inductive header_value : Type :=
| HStr (s : string)
| HNum (n : nat).

Inductive exn : Type :=
| SyntaxError (input : string)             (* JSON.parse rejected [input] *)
| NullishAccess (v : jsval) (prop : string) (* TypeError: [v.prop], v undefined or null *)
| InvalidURL (v : jsval)                    (* TypeError: [new URL(v)] *)
| UpstreamError (message : string)          (* a rejected API call, with its message *)
| LibraryError (message : string)           (* an Error thrown inside the XLSX library *)
| InvalidHeader (name : string) (value : header_value).
                                            (* TypeError: [res.setHeader(name, value)] *)

Record SearchParams : Type := mkParams
  { key : string; cx : string; q : string; num : Z; start : Z }.

(** [new google.auth.JWT(client_email, null, private_key, scopes)] *)
Record JWT : Type := mkJWT
  { client_email : jsval; private_key : jsval; scopes : list string }.

Record CreateRequest : Type := mkCreate
  { doc_title : jsval; sheet_title : string; rowCount : Z; columnCount : Z }.

Record UpdateRequest : Type := mkUpdate
  { upd_spreadsheetId : string; range : string; valueInputOption : string;
    values : list (list jsval) }.

Record PermissionRequest : Type := mkPermission
  { fileId : string; role : string; type_ : string }.

Inductive call : Type :=
| CustomSearch (p : SearchParams)                      (* axios.get(customsearch/v1, {params}) *)
| SpreadsheetsCreate (auth : JWT) (r : CreateRequest)   (* sheets.spreadsheets.create *)
| ValuesUpdate (auth : JWT) (r : UpdateRequest)         (* sheets.spreadsheets.values.update *)
| PermissionsCreate (auth : JWT) (r : PermissionRequest) (* drive.permissions.create *)
| BookNew                                               (* XLSX.utils.book_new() *)
| XlsxWrite (worksheetData : list (list jsval)).        (* aoa_to_sheet, book_append_sheet, XLSX.write *)

(** ** What a handler passes to the response object *)

(** The [error] field: a literal of the source, or the [message] of a caught error. *)
Inductive err_text : Type :=
| Text (s : string)
| Message (e : exn).

Inductive body : Type :=
| Error (error : err_text)
| Results (results : list jsval)
| Spreadsheet (spreadsheetId spreadsheetUrl : string) (totalResults : nat)
| Summary (message jobTitle location : string) (totalResults : nat)
          (spreadsheetId spreadsheetUrl : string).

Inductive response : Type :=
| json (b : body)                       (* res.json(b) *)
| status_json (code : Z) (b : body)     (* res.status(code).json(b) *)
| send (headers : list (string * header_value)) (buffer : list Byte.byte).
                                        (* res.setHeader(..) ...; res.send(buffer) *)

Definition http_status (r : response) : Z :=
  match r with
  | json _ => 200
  | status_json code _ => code
  | send _ _ => 200
  end.

Record run : Type := Run { calls : list call; sent : response }.

(** ** The monad of an async function body: a log of calls and a result or a throw *)

Definition M (A : Type) : Type := (list call * (exn + A))%type.

Definition ret {A} (a : A) : M A := ([], inr a).

Definition throw {A} (e : exn) : M A := ([], inl e).

Definition bind {A B} (m : M A) (f : A -> M B) : M B :=
  match m with
  | (t, inl e) => (t, inl e)
  | (t, inr a) => let (t', r) := f a in (t ++ t', r)
  end.

Declare Scope js_scope.
Delimit Scope js_scope with js.
Notation "x <- m ;; k" := (bind m (fun x => k))
  (at level 100, m at next level, right associativity) : js_scope.
Notation "m ;;; k" := (bind m (fun _ => k))
  (at level 100, right associativity) : js_scope.
Open Scope js_scope.

(** [await api(request)]: the call is logged; a rejection is thrown. *)
Definition await {A} (c : call) (answer : string + A) : M A :=
  ([c], match answer with
        | inl message => inl (UpstreamError message)
        | inr a => inr a
        end).

(** A call into a library that answers at once and cannot throw
    ([XLSX.utils.book_new()], which only builds an empty workbook object). *)
Definition library {A} (c : call) (a : A) : M A := ([c], inr a).

(** A call into a library that answers at once or throws an Error with a
    message: the call is logged either way. *)
Definition library_call {A} (c : call) (answer : string + A) : M A :=
  ([c], match answer with
        | inl message => inl (LibraryError message)
        | inr a => inr a
        end).

Fixpoint mapM {A B} (f : A -> M B) (l : list A) : M (list B) :=
  match l with
  | [] => ret []
  | x :: rest => y <- f x ;; ys <- mapM f rest ;; ret (y :: ys)
  end.

(** A step that issues no call. *)
Definition pure_step {A} (m : M A) : Prop := fst m = [].

(** [try { ... } catch (error) { return res.status(500).json({ error: error.message }) }] *)
Definition try_catch_500 (m : M response) : run :=
  match m with
  | (t, inr r) => Run t r
  | (t, inl e) => Run t (status_json 500 (Error (Message e)))
  end.

(** [v === undefined || v === null] *)
Definition nullish (v : jsval) : bool :=
  match v with VUndefined | VNull => true | _ => false end.

(** [v.prop] on a value that is neither undefined nor null, for the
    properties this program reads (title, link, snippet, source,
    client_email, private_key): a primitive or an array has none of them,
    except that a string inherits the method [link] from String.prototype. *)
Definition read_prop (v : jsval) (prop : string) : jsval :=
  match v with
  | VObj props => lookup_prop prop props
  | VStr _ => if (prop =? "link")%string then VFun "String.prototype.link" else VUndefined
  | _ => VUndefined
  end.

(** [v.prop]: reading a property of undefined or null throws a TypeError. *)
Definition get_prop (v : jsval) (prop : string) : M jsval :=
  if nullish v then throw (NullishAccess v prop) else ret (read_prop v prop).

(** [hay.includes(needle)] *)
Fixpoint contains (needle hay : string) : bool :=
  if prefix needle hay then true
  else match hay with
       | EmptyString => false
       | String _ rest => contains needle rest
       end.

(** [Math.ceil(m / 10)] *)
Definition ceil_div10 (m : Z) : Z := - ((- m) / 10).

(** [l.slice(0, e)]: a negative [e] counts from the end. *)
Definition slice0 {A} (l : list A) (e : Z) : list A :=
  if e <? 0
  then firstn (Z.to_nat (Z.max (Z.of_nat (List.length l) + e) 0)) l
  else firstn (Z.to_nat e) l.

(** A destructuring default: [{ filename = 'job_listings.xlsx' } = req.body]. *)
Definition default_filename_xlsx (o : option string) : string :=
  match o with None => "job_listings.xlsx" | Some f => f end.

(** A destructuring default: [{ maxResults = 50 } = req.body]. *)
Definition default_maxResults (o : option Z) : Z :=
  match o with None => 50 | Some m => m end.

Definition dquote : string := String (ascii_of_nat 34) EmptyString.

(** ** The process environment and the request bodies *)

Record environment : Type := mkEnv
  { GOOGLE_API_KEY : option string;
    GOOGLE_CX : option string;
    GOOGLE_SHEETS_CREDENTIALS : option string }.

(** Body of /api/search: [jobTitle] and [location] absent or strings,
    [maxResults] absent or an integer. *)
Record search_body : Type := mkSearch
  { jobTitle : option string; location : option string; maxResults : option Z }.

(** Body of the spreadsheet export; [data] is an array. *)
Record spreadsheet_body : Type := mkSheetBody
  { title : jsval; data : list jsval }.

(** Body of the file export; [data] is any value. *)
Record excel_body : Type := mkExcelBody
  { excel_data : jsval; filename : option string }.

(** Bodies of the composite routes: [jobTitle], [location] and the names
    absent or strings, [maxResults] absent or an integer. *)
Record search_to_spreadsheet_body : Type := mkS2S
  { s2s_jobTitle : option string; s2s_location : option string;
    s2s_maxResults : option Z; spreadsheetTitle : option string }.

Record search_to_excel_body : Type := mkS2E
  { s2e_jobTitle : option string; s2e_location : option string;
    s2e_maxResults : option Z; s2e_filename : option string }.

Definition missing_search_credentials : string :=
  "Missing Google API credentials. Set GOOGLE_API_KEY and GOOGLE_CX environment variables.".

Definition missing_sheets_credentials : string :=
  "Missing Google Sheets credentials. Set GOOGLE_SHEETS_CREDENTIALS environment variable.".

Definition invalid_data_format : string :=
  "Invalid data format. Please provide an array of job listings.".

Definition missing_jobTitle : string :=
  "Missing required parameter: jobTitle is required".

Definition header_row : list jsval :=
  [VStr "Title"; VStr "Link"; VStr "Description"; VStr "Source"].

(** ** Sample worlds and requests

    Concrete answers of the outside services and concrete requests, used to
    run the handlers in the examples at the end of the file. *)

Module Sample.

Definition listing_link : string := "https://example.com/jobs/1".

(** The host name of the one link the samples use; any other value is
    treated as not being a URL. *)
Definition hostname (v : jsval) : option string :=
  match v with
  | VStr s => if (s =? listing_link)%string then Some "example.com" else None
  | _ => None
  end.

(** An item of a search page, and the result the handler makes of it. *)
Definition item : jsval :=
  VObj [("title", VStr "Looking for Engineer"); ("link", VStr listing_link);
        ("snippet", VStr "We are looking for an Engineer")].

Definition result : jsval :=
  VObj [("title", VStr "Looking for Engineer"); ("link", VStr listing_link);
        ("snippet", VStr "We are looking for an Engineer"); ("source", VStr "example.com")].

Definition short_page : list jsval := [item; item; item; item; item].

(** A search API that always answers with the same page of five items. *)
Definition same_page (p : SearchParams) : string + option (list jsval) :=
  inr (Some short_page).

(** A search API with five items in all: a first page of five, then nothing. *)
Definition five_in_all (p : SearchParams) : string + option (list jsval) :=
  if start p =? 1 then inr (Some short_page) else inr None.

Definition credentials_text : string :=
  ("{" ++ dquote ++ "client_email" ++ dquote ++ ":" ++ dquote ++ "robot@example.com" ++ dquote
   ++ "," ++ dquote ++ "private_key" ++ dquote ++ ":" ++ dquote ++ "secret" ++ dquote
   ++ "}")%string.

Definition credentials : jsval :=
  VObj [("client_email", VStr "robot@example.com"); ("private_key", VStr "secret")].

(** JSON.parse on the texts the samples use: the credentials text, the text
    null, and texts that are not JSON. *)
Definition parse (text : string) : option jsval :=
  if (text =? credentials_text)%string then Some credentials
  else if (text =? "null")%string then Some VNull
  else None.

Definition env : environment :=
  mkEnv (Some "api-key") (Some "engine-id") (Some credentials_text).

Definition env_without_key : environment :=
  mkEnv None (Some "engine-id") (Some credentials_text).

Definition env_bad_credentials : environment :=
  mkEnv (Some "api-key") (Some "engine-id") (Some "not json").

Definition env_null_credentials : environment :=
  mkEnv (Some "api-key") (Some "engine-id") (Some "null").

Definition env_no_credentials : environment :=
  mkEnv (Some "api-key") (Some "engine-id") None.

Definition create_ok (auth : JWT) (r : CreateRequest) : string + string := inr "doc-1".
Definition update_ok (auth : JWT) (r : UpdateRequest) : string + unit := inr tt.
Definition update_rejected (auth : JWT) (r : UpdateRequest) : string + unit :=
  inl "The caller does not have permission".
Definition permission_ok (auth : JWT) (r : PermissionRequest) : string + unit := inr tt.

(** An encoder that takes every worksheet: one byte per row, enough to tell
    workbooks apart by size. *)
Definition encoded (rows : list (list jsval)) : list Byte.byte :=
  map (fun _ => Byte.x00) rows.

Definition encode (rows : list (list jsval)) : string + list Byte.byte :=
  inr (encoded rows).

(** A response object that takes every header value. *)
Definition accept_header (name : string) (value : header_value) : bool := true.

Definition today : string := "11/2/2026".

(** Runs of blanks replaced by one underscore. *)
Fixpoint underscore_blanks (s : string) : string :=
  match s with
  | EmptyString => EmptyString
  | String c rest =>
      if (c =? " ")%char
      then match rest with
           | String c' _ =>
               if (c' =? " ")%char then underscore_blanks rest
               else String "_" (underscore_blanks rest)
           | EmptyString => "_"
           end
      else String c (underscore_blanks rest)
  end.

Definition listing_A : jsval :=
  VObj [("title", VStr "A"); ("link", VStr "http://x.com/1");
        ("snippet", VStr "s"); ("source", VStr "x.com")].

End Sample.

(** ** More sample worlds *)

Module Worlds.

(** A search API that answers the first page and rejects every later call. *)
Definition quota_after_first (p : SearchParams) : string + option (list jsval) :=
  if start p =? 1 then inr (Some Sample.short_page) else inl "Quota exceeded".

(** An item whose link is not a URL, and a page that holds it. *)
Definition broken_item : jsval :=
  VObj [("title", VStr "Looking for Designer"); ("link", VStr "not a url");
        ("snippet", VStr "We are looking for a Designer")].

Definition broken_page : list jsval := [Sample.item; broken_item].

Definition broken_on_second (p : SearchParams) : string + option (list jsval) :=
  if start p =? 1 then inr (Some Sample.short_page) else inr (Some broken_page).

(** A search API whose every page holds ten items. *)
Definition full_page : list jsval :=
  [Sample.item; Sample.item; Sample.item; Sample.item; Sample.item;
   Sample.item; Sample.item; Sample.item; Sample.item; Sample.item].

Definition full_pages (p : SearchParams) : string + option (list jsval) :=
  inr (Some full_page).

(** A search API that finds nothing. *)
Definition nothing_found (p : SearchParams) : string + option (list jsval) := inr None.

Definition permission_rejected (auth : JWT) (r : PermissionRequest) : string + unit :=
  inl "Sharing is disabled".

Definition create_rejected (auth : JWT) (r : CreateRequest) : string + string :=
  inl "Invalid credentials".

(** An encoder that refuses a cell whose text is longer than 32767
    characters, the limit of a spreadsheet cell. *)
Definition too_long (cell : jsval) : bool :=
  match cell with
  | VStr s => (32767 <? N.of_nat (String.length s))%N
  | _ => false
  end.

Definition cell_limit_encoder (rows : list (list jsval)) : string + list Byte.byte :=
  if existsb (existsb too_long) rows
  then inl "Text length must not exceed 32767 characters"
  else inr (Sample.encoded rows).

Fixpoint text_of_length (n : nat) : string :=
  match n with
  | O => EmptyString
  | S n' => String "a" (text_of_length n')
  end.

Definition long_listing : jsval :=
  VObj [("title", VStr "A"); ("link", VStr "http://x.com/1");
        ("snippet", VStr (text_of_length (2 ^ 15))); ("source", VStr "x.com")].

(** A search API whose one item has a snippet longer than a cell may be, and
    the result the handler makes of it. *)
Definition long_item : jsval :=
  VObj [("title", VStr "Looking for Engineer"); ("link", VStr Sample.listing_link);
        ("snippet", VStr (text_of_length (2 ^ 15)))].

Definition long_result : jsval :=
  VObj [("title", VStr "Looking for Engineer"); ("link", VStr Sample.listing_link);
        ("snippet", VStr (text_of_length (2 ^ 15))); ("source", VStr "example.com")].

Definition long_snippet (p : SearchParams) : string + option (list jsval) :=
  inr (Some [long_item]).

(** A response object that refuses a header value holding a line feed. *)
Definition line_feed : string := String (ascii_of_nat 10) EmptyString.

Definition no_line_feed (name : string) (value : header_value) : bool :=
  match value with
  | HStr s => negb (contains line_feed s)
  | HNum _ => true
  end.

Definition two_line_name : string := ("jobs" ++ line_feed ++ ".xlsx")%string.

End Worlds.

Section Handlers.

(** [new URL(v).hostname]; [None] when the constructor throws. *)
Variable URL_hostname : jsval -> option string.
(** [JSON.parse(s)]; [None] when it throws. *)
Variable JSON_parse : string -> option jsval.
(** aoa_to_sheet, book_append_sheet and XLSX.write on the rows of the one
    sheet: the bytes of the workbook, or [inl message] when the library
    throws (a cell it cannot encode). *)
Variable XLSX_write : list (list jsval) -> string + list Byte.byte.
(** Whether [res.setHeader(name, value)] takes the value; it throws on a
    value that holds characters a header may not carry. *)
Variable header_accepted : string -> header_value -> bool.
(** The answers of the outside services; [inl message] is a rejection. *)
Variable axios_get : SearchParams -> string + option (list jsval).
Variable spreadsheets_create : JWT -> CreateRequest -> string + string.
Variable values_update : JWT -> UpdateRequest -> string + unit.
Variable permissions_create : JWT -> PermissionRequest -> string + unit.
(** [new Date().toLocaleDateString()] *)
Variable toLocaleDateString : string.
(** [s.replace(/\s+/g, '_')] *)
Variable replace_whitespace : string -> string.

(** *** googleSearchHandler *)

Definition search_query (jobTitle location : option string) : string :=
  ("site:linkedin.com OR site:indeed.com OR site:glassdoor.com OR site:monster.com OR site:ziprecruiter.com "
   ++ dquote ++ "Looking for " ++ template jobTitle ++ dquote ++ " "
   ++ (if truthy_str location then dquote ++ template location ++ dquote else ""))%string.

Definition format_result (item : jsval) : M jsval :=
  t <- get_prop item "title" ;;
  l <- get_prop item "link" ;;
  s <- get_prop item "snippet" ;;
  match URL_hostname l with
  | None => throw (InvalidURL l)
  | Some hostname =>
      ret (VObj [("title", t); ("link", l); ("snippet", s); ("source", VStr hostname)])
  end.

(** The [for] loop about to test [i < maxRequestsNeeded], with
    [n = maxRequestsNeeded - i] iterations left ([i++] and [break] are the
    recursive call and the returns). *)
Fixpoint search_loop (apiKey cx_id : string) (jobTitle location : option string)
    (maxResults : Z) (n : nat) (i : Z) (allResults : list jsval) : M (list jsval) :=
  match n with
  | O => ret allResults
  | S n' =>
      let startIndex := i * 10 + 1 in
      let query := search_query jobTitle location in
      let params := mkParams apiKey cx_id query 10 startIndex in
      items <- await (CustomSearch params) (axios_get params) ;;
      match items with
      | Some ((_ :: _) as page) =>
          formattedResults <- mapM format_result page ;;
          let allResults := allResults ++ formattedResults in
          if Z.of_nat (List.length allResults) >=? maxResults
          then ret allResults
          else search_loop apiKey cx_id jobTitle location maxResults n' (i + 1) allResults
      | _ => ret allResults
      end
  end.

Definition googleSearchHandler (env : environment) (b : search_body) : run :=
  let maxResults := default_maxResults (maxResults b) in
  if negb (truthy_str (GOOGLE_API_KEY env)) || negb (truthy_str (GOOGLE_CX env))
  then Run [] (status_json 500 (Error (Text missing_search_credentials)))
  else
    try_catch_500 (
      let maxRequestsNeeded := ceil_div10 maxResults in
      allResults <- search_loop (template (GOOGLE_API_KEY env)) (template (GOOGLE_CX env))
                      (jobTitle b) (location b) maxResults
                      (Z.to_nat maxRequestsNeeded) 0 [] ;;
      ret (json (Results (slice0 allResults maxResults)))).

(** *** createSpreadsheetHandler *)

Definition sheets_scopes : list string :=
  ["https://www.googleapis.com/auth/spreadsheets"; "https://www.googleapis.com/auth/drive"].

(** [JSON.parse(process.env.GOOGLE_SHEETS_CREDENTIALS)]: the argument is
    converted to a string first, an absent variable to the text undefined. *)
Definition parse_credentials (env : environment) : M jsval :=
  let text := template (GOOGLE_SHEETS_CREDENTIALS env) in
  match JSON_parse text with
  | None => throw (SyntaxError text)
  | Some v => ret v
  end.

Definition sheet_row (item : jsval) : M (list jsval) :=
  t <- get_prop item "title" ;;
  l <- get_prop item "link" ;;
  s <- get_prop item "snippet" ;;
  o <- get_prop item "source" ;;
  ret [t; l; s; o].

Definition spreadsheet_url (spreadsheetId : string) : string :=
  ("https://docs.google.com/spreadsheets/d/" ++ spreadsheetId ++ "/edit?usp=sharing")%string.

Definition createSpreadsheetHandler (env : environment) (b : spreadsheet_body) : run :=
  try_catch_500 (
    credentials <- parse_credentials env ;;
    if negb (truthy credentials)
    then ret (status_json 500 (Error (Text missing_sheets_credentials)))
    else
      email <- get_prop credentials "client_email" ;;
      pkey <- get_prop credentials "private_key" ;;
      let auth := mkJWT email pkey sheets_scopes in
      let create := mkCreate (title b) "Job Listings" (Z.of_nat (List.length (data b)) + 1) 4 in
      spreadsheetId <- await (SpreadsheetsCreate auth create) (spreadsheets_create auth create) ;;
      rows <- mapM sheet_row (data b) ;;
      let values := header_row :: rows in
      let update := mkUpdate spreadsheetId "Job Listings!A1" "RAW" values in
      await (ValuesUpdate auth update) (values_update auth update) ;;;
      let permission := mkPermission spreadsheetId "writer" "anyone" in
      await (PermissionsCreate auth permission) (permissions_create auth permission) ;;;
      ret (json (Spreadsheet spreadsheetId (spreadsheet_url spreadsheetId)
                   (List.length (data b))))).

(** *** exportToExcelHandler *)

Definition array_elems (v : jsval) : list jsval :=
  match v with VArr l => l | _ => [] end.

Definition excel_row (item : jsval) : M (list jsval) :=
  t <- get_prop item "title" ;;
  l <- get_prop item "link" ;;
  s <- get_prop item "snippet" ;;
  o <- get_prop item "source" ;;
  ret [js_or t (VStr ""); js_or l (VStr ""); js_or s (VStr ""); js_or o (VStr "")].

Definition xlsx_content_type : string :=
  "application/vnd.openxmlformats-officedocument.spreadsheetml.sheet".

(** [res.setHeader(name, value)] *)
Definition setHeader (name : string) (value : header_value) : M unit :=
  if header_accepted name value then ret tt else throw (InvalidHeader name value).

Definition exportToExcelHandler (b : excel_body) : run :=
  let data := excel_data b in
  let filename := default_filename_xlsx (filename b) in
  try_catch_500 (
    if negb (truthy data) || negb (isArray data)
       || (Z.of_nat (List.length (array_elems data)) =? 0)
    then ret (status_json 400 (Error (Text invalid_data_format)))
    else
      library BookNew tt ;;;
      rows <- mapM excel_row (array_elems data) ;;
      let worksheetData := header_row :: rows in
      excelBuffer <- library_call (XlsxWrite worksheetData) (XLSX_write worksheetData) ;;
      setHeader "Content-Type" (HStr xlsx_content_type) ;;;
      setHeader "Content-Disposition" (HStr ("attachment; filename=" ++ filename)%string) ;;;
      setHeader "Content-Length" (HNum (List.length excelBuffer)) ;;;
      ret (send [("Content-Type", HStr xlsx_content_type);
                 ("Content-Disposition", HStr ("attachment; filename=" ++ filename)%string);
                 ("Content-Length", HNum (List.length excelBuffer))]
                excelBuffer)).

(** *** The routes of index.js *)

Definition post_api_search (env : environment) (b : search_body) : run :=
  googleSearchHandler env b.

Definition post_google_search (env : environment) (b : search_body) : run :=
  googleSearchHandler env b.

Definition default_spreadsheet_title (jobTitle location : option string) : string :=
  (template jobTitle ++ " Jobs"
   ++ (if truthy_str location then " in " ++ template location else "")
   ++ " - " ++ toLocaleDateString)%string.

(** The mock response objects of the route hand a [json] of the first
    handler to the second one and re-send a [status(code).json] as it is. *)
Definition post_search_to_spreadsheet (env : environment)
    (b : search_to_spreadsheet_body) : run :=
  let jobTitle := s2s_jobTitle b in
  let location := s2s_location b in
  let maxResults := default_maxResults (s2s_maxResults b) in
  if negb (truthy_str jobTitle)
  then Run [] (status_json 400 (Error (Text missing_jobTitle)))
  else
    let search := googleSearchHandler env (mkSearch jobTitle location (Some maxResults)) in
    match sent search with
    | json (Results results) =>
        let sheet_title :=
          if truthy_str (spreadsheetTitle b) then template (spreadsheetTitle b)
          else default_spreadsheet_title jobTitle location in
        let sheet := createSpreadsheetHandler env (mkSheetBody (VStr sheet_title) results) in
        match sent sheet with
        | json (Spreadsheet spreadsheetId spreadsheetUrl _) =>
            Run (calls search ++ calls sheet)
                (json (Summary "Search and spreadsheet creation successful"
                         (template jobTitle)
                         (if truthy_str location then template location else "Any location")
                         (List.length results) spreadsheetId spreadsheetUrl))
        | other => Run (calls search ++ calls sheet) other
        end
    | other => Run (calls search) other
    end.

Definition default_filename (jobTitle location : option string) : string :=
  (replace_whitespace (template jobTitle)
   ++ (if truthy_str location then "_" ++ replace_whitespace (template location) else "")
   ++ "_jobs.xlsx")%string.

Definition post_search_to_excel (env : environment) (b : search_to_excel_body) : run :=
  let jobTitle := s2e_jobTitle b in
  let location := s2e_location b in
  let maxResults := default_maxResults (s2e_maxResults b) in
  if negb (truthy_str jobTitle)
  then Run [] (status_json 400 (Error (Text missing_jobTitle)))
  else
    let excelFilename :=
      if truthy_str (s2e_filename b) then template (s2e_filename b)
      else default_filename jobTitle location in
    let search := googleSearchHandler env (mkSearch jobTitle location (Some maxResults)) in
    match sent search with
    | json (Results results) =>
        let excel := exportToExcelHandler (mkExcelBody (VArr results) (Some excelFilename)) in
        Run (calls search ++ calls excel) (sent excel)
    | other => Run (calls search) other
    end.

(** *** Notions used to state the properties *)

(** The parameters of the search call of iteration [i]. *)
Definition params_at (apiKey cx_id : string) (jobTitle location : option string) (i : Z)
  : SearchParams :=
  mkParams apiKey cx_id (search_query jobTitle location) 10 (i * 10 + 1).

(** The cells [sheet_row] and [excel_row] produce for an item that is
    neither undefined nor null. *)
Definition sheet_cells (item : jsval) : list jsval :=
  [read_prop item "title"; read_prop item "link"; read_prop item "snippet";
   read_prop item "source"].

Definition excel_cells (item : jsval) : list jsval :=
  [js_or (read_prop item "title") (VStr ""); js_or (read_prop item "link") (VStr "");
   js_or (read_prop item "snippet") (VStr ""); js_or (read_prop item "source") (VStr "")].

(** The JWT client built from parsed credentials. *)
Definition jwt_of (credentials : jsval) : JWT :=
  mkJWT (read_prop credentials "client_email") (read_prop credentials "private_key")
    sheets_scopes.

Definition excel_headers (filename : string) (excelBuffer : list Byte.byte)
  : list (string * header_value) :=
  [("Content-Type", HStr xlsx_content_type);
   ("Content-Disposition", HStr ("attachment; filename=" ++ filename)%string);
   ("Content-Length", HNum (List.length excelBuffer))].

(** The first header of a list that the response object does not take. *)
Definition rejected_header (headers : list (string * header_value))
  : option (string * header_value) :=
  find (fun h => negb (header_accepted (fst h) (snd h))) headers.

(** What the file export answers once the encoder has answered. *)
Definition excel_answer (filename : string) (answer : string + list Byte.byte) : response :=
  match answer with
  | inl message => status_json 500 (Error (Message (LibraryError message)))
  | inr excelBuffer =>
      match rejected_header (excel_headers filename excelBuffer) with
      | Some (name, value) => status_json 500 (Error (Message (InvalidHeader name value)))
      | None => send (excel_headers filename excelBuffer) excelBuffer
      end
  end.

(** The message with which the outside service rejects a call, if it does. *)
Definition rejection (c : call) : option string :=
  match c with
  | CustomSearch p =>
      match axios_get p with inl m => Some m | inr _ => None end
  | SpreadsheetsCreate auth r =>
      match spreadsheets_create auth r with inl m => Some m | inr _ => None end
  | ValuesUpdate auth r =>
      match values_update auth r with inl m => Some m | inr _ => None end
  | PermissionsCreate auth r =>
      match permissions_create auth r with inl m => Some m | inr _ => None end
  | BookNew | XlsxWrite _ => None
  end.

(** The search loop of a request, as the handler starts it. *)
Definition search_of (env : environment) (b : search_body) : M (list jsval) :=
  search_loop (template (GOOGLE_API_KEY env)) (template (GOOGLE_CX env))
    (jobTitle b) (location b) (default_maxResults (maxResults b))
    (Z.to_nat (ceil_div10 (default_maxResults (maxResults b)))) 0 [].

(** The results the handler makes of the page answered to a search call. *)
Definition formatted_page (p : SearchParams) : list jsval :=
  match axios_get p with
  | inr (Some page) =>
      match snd (mapM format_result page) with
      | inr formattedResults => formattedResults
      | inl _ => []
      end
  | _ => []
  end.

(** The formatted pages of the search calls of a log, in the order of the calls. *)
Definition gathered (log : list call) : list jsval :=
  flat_map (fun c => match c with CustomSearch p => formatted_page p | _ => [] end) log.

(** A listing as [format_result] builds it: the four properties in the
    order of the object literal, the source being the host name of the link. *)
Definition listing_result (r : jsval) : Prop :=
  exists t l s hostname,
    r = VObj [("title", t); ("link", l); ("snippet", s); ("source", VStr hostname)]
    /\ URL_hostname l = Some hostname.

(** An item [format_result] throws on: undefined, null, or a link the URL
    constructor rejects. *)
Definition unusable_item (item : jsval) : Prop :=
  nullish item = true \/ URL_hostname (read_prop item "link") = None.

(** A cell of the file export: a truthy field, or the empty string. *)
Definition filled_cell (cell : jsval) : Prop :=
  truthy cell = true \/ cell = VStr "".

(** The search of a composite route and the names it gives to its export. *)
Definition s2s_search (env : environment) (b : search_to_spreadsheet_body) : run :=
  googleSearchHandler env
    (mkSearch (s2s_jobTitle b) (s2s_location b) (Some (default_maxResults (s2s_maxResults b)))).

Definition s2s_title (b : search_to_spreadsheet_body) : string :=
  if truthy_str (spreadsheetTitle b) then template (spreadsheetTitle b)
  else default_spreadsheet_title (s2s_jobTitle b) (s2s_location b).

Definition s2e_search (env : environment) (b : search_to_excel_body) : run :=
  googleSearchHandler env
    (mkSearch (s2e_jobTitle b) (s2e_location b) (Some (default_maxResults (s2e_maxResults b)))).

Definition s2e_excelFilename (b : search_to_excel_body) : string :=
  if truthy_str (s2e_filename b) then template (s2e_filename b)
  else default_filename (s2e_jobTitle b) (s2e_location b).

(** ** Properties *)

(** *** The monad *)

Lemma get_prop_pure (v : jsval) (prop : string) : pure_step (get_prop v prop).
Proof. unfold pure_step, get_prop. destruct (nullish v); reflexivity. Qed.

Lemma get_prop_read (v : jsval) (prop : string) :
  nullish v = false -> get_prop v prop = ret (read_prop v prop).
Proof. unfold get_prop. intros ->. reflexivity. Qed.

Lemma bind_pure {A B} (m : M A) (f : A -> M B) :
  pure_step m -> (forall a, pure_step (f a)) -> pure_step (bind m f).
Proof.
  unfold pure_step, bind. destruct m as [t [e | a]]; simpl; intros Ht Hf.
  - exact Ht.
  - specialize (Hf a). destruct (f a) as [t' r]. simpl in *. subst. reflexivity.
Qed.

Lemma bind_ret_l {A B} (a : A) (f : A -> M B) : bind (ret a) f = f a.
Proof. unfold bind, ret. destruct (f a). reflexivity. Qed.

Lemma mapM_pure {A B} (f : A -> M B) (l : list A) :
  (forall x, pure_step (f x)) -> pure_step (mapM f l).
Proof.
  intros Hf. induction l as [| x l IH]; simpl.
  - reflexivity.
  - apply bind_pure; [apply Hf |]. intros y.
    apply bind_pure; [exact IH |]. intros ys. reflexivity.
Qed.

Lemma mapM_length {A B} (f : A -> M B) (l : list A) (ys : list B) :
  snd (mapM f l) = inr ys -> List.length ys = List.length l.
Proof.
  revert ys. induction l as [| x l IH]; simpl; intros ys H.
  - inversion H. reflexivity.
  - unfold bind in H. destruct (f x) as [t [e | y]]; simpl in H; [discriminate |].
    destruct (mapM f l) as [t' [e | ys']]; simpl in H; [discriminate |].
    inversion H. simpl. f_equal. apply IH. reflexivity.
Qed.

Lemma mapM_ret {A B} (f : A -> M B) (g : A -> B) (l : list A) :
  Forall (fun x => f x = ret (g x)) l -> mapM f l = ret (map g l).
Proof.
  induction 1 as [| x l Hx _ IH]; simpl.
  - reflexivity.
  - rewrite Hx, IH. reflexivity.
Qed.

Lemma calls_try_catch (m : M response) : calls (try_catch_500 m) = fst m.
Proof. destruct m as [t [e | r]]; reflexivity. Qed.

Lemma format_result_pure (item : jsval) : pure_step (format_result item).
Proof.
  unfold format_result.
  apply bind_pure; [apply get_prop_pure |]. intros t.
  apply bind_pure; [apply get_prop_pure |]. intros l.
  apply bind_pure; [apply get_prop_pure |]. intros s.
  destruct (URL_hostname l); reflexivity.
Qed.

(** *** The search loop *)

(** One iteration, spelled out by the answer of the search API. *)
Lemma search_loop_step apiKey cx_id jobTitle location maxResults n i allResults :
  search_loop apiKey cx_id jobTitle location maxResults (S n) i allResults =
  let p := params_at apiKey cx_id jobTitle location i in
  match axios_get p with
  | inl message => ([CustomSearch p], inl (UpstreamError message))
  | inr (Some (item :: page)) =>
      match snd (mapM format_result (item :: page)) with
      | inl e => ([CustomSearch p], inl e)
      | inr formattedResults =>
          if Z.of_nat (List.length (allResults ++ formattedResults)) >=? maxResults
          then ([CustomSearch p], inr (allResults ++ formattedResults))
          else
            let (t, r) := search_loop apiKey cx_id jobTitle location maxResults n (i + 1)
                            (allResults ++ formattedResults) in
            (CustomSearch p :: t, r)
      end
  | inr _ => ([CustomSearch p], inr allResults)
  end.
Proof.
  cbn [search_loop]. unfold params_at. cbv zeta.
  set (p := mkParams apiKey cx_id (search_query jobTitle location) 10 (i * 10 + 1)).
  unfold await, bind at 1.
  destruct (axios_get p) as [message | [[| item page] |]]; try reflexivity.
  pose proof (mapM_pure format_result (item :: page) format_result_pure) as Hp.
  unfold pure_step in Hp. unfold bind.
  destruct (mapM format_result (item :: page)) as [t [e | rs]]; simpl in Hp; subst t; simpl.
  - reflexivity.
  - destruct (Z.of_nat (List.length (allResults ++ rs)) >=? maxResults); [reflexivity |].
    destruct (search_loop apiKey cx_id jobTitle location maxResults n (i + 1) (allResults ++ rs)).
    reflexivity.
Qed.

Lemma search_loop_calls_le apiKey cx_id jobTitle location maxResults n :
  forall i allResults,
    (List.length (fst (search_loop apiKey cx_id jobTitle location maxResults n i allResults))
     <= n)%nat.
Proof.
  induction n as [| n IH]; intros i allResults.
  - simpl. lia.
  - rewrite search_loop_step. cbv zeta.
    destruct (axios_get _) as [message | [[| item page] |]]; try (simpl; lia).
    destruct (snd (mapM format_result (item :: page))) as [e | rs]; [simpl; lia |].
    destruct (_ >=? _); [simpl; lia |].
    specialize (IH (i + 1) (allResults ++ rs)).
    destruct (search_loop _ _ _ _ _ n (i + 1) (allResults ++ rs)) as [t r].
    simpl in *. lia.
Qed.

Lemma search_loop_first_call apiKey cx_id jobTitle location maxResults n i allResults :
  exists rest,
    fst (search_loop apiKey cx_id jobTitle location maxResults (S n) i allResults) =
    CustomSearch (params_at apiKey cx_id jobTitle location i) :: rest.
Proof.
  rewrite search_loop_step. cbv zeta.
  destruct (axios_get _) as [message | [[| item page] |]]; try (simpl; eauto; fail).
  destruct (snd (mapM format_result (item :: page))) as [e | rs]; [simpl; eauto |].
  destruct (_ >=? _); [simpl; eauto |].
  destruct (search_loop _ _ _ _ _ n (i + 1) (allResults ++ rs)) as [t r]. simpl. eauto.
Qed.

Lemma search_loop_one_call apiKey cx_id jobTitle location maxResults i allResults :
  fst (search_loop apiKey cx_id jobTitle location maxResults 1 i allResults) =
  [CustomSearch (params_at apiKey cx_id jobTitle location i)].
Proof.
  destruct (search_loop_first_call apiKey cx_id jobTitle location maxResults 0 i allResults)
    as [rest H].
  pose proof (search_loop_calls_le apiKey cx_id jobTitle location maxResults 1 i allResults) as L.
  rewrite H in *. destruct rest; [reflexivity | simpl in L; lia].
Qed.

(** Every call of the loop carries the query built from the body. *)
Lemma search_loop_queries apiKey cx_id jobTitle location maxResults n :
  forall i allResults c,
    In c (fst (search_loop apiKey cx_id jobTitle location maxResults n i allResults)) ->
    exists j, c = CustomSearch (params_at apiKey cx_id jobTitle location j).
Proof.
  induction n as [| n IH]; intros i allResults c.
  - simpl. tauto.
  - rewrite search_loop_step. cbv zeta.
    destruct (axios_get _) as [message | [[| item page] |]];
      try (simpl; intros [<- | []]; eauto; fail).
    destruct (snd (mapM format_result (item :: page))) as [e | rs];
      [simpl; intros [<- | []]; eauto |].
    destruct (_ >=? _); [simpl; intros [<- | []]; eauto |].
    specialize (IH (i + 1) (allResults ++ rs) c).
    destruct (search_loop _ _ _ _ _ n (i + 1) (allResults ++ rs)) as [t r].
    simpl in *. intros [<- | H]; eauto.
Qed.

Lemma ceil_div10_spec (m : Z) : 10 * (ceil_div10 m - 1) < m <= 10 * ceil_div10 m.
Proof.
  unfold ceil_div10.
  pose proof (Z.div_mod (- m) 10) as E.
  pose proof (Z.mod_pos_bound (- m) 10) as B.
  lia.
Qed.

Lemma credentials_present (env : environment) :
  truthy_str (GOOGLE_API_KEY env) = true ->
  truthy_str (GOOGLE_CX env) = true ->
  negb (truthy_str (GOOGLE_API_KEY env)) || negb (truthy_str (GOOGLE_CX env)) = false.
Proof. intros -> ->. reflexivity. Qed.

(** With both credentials set the handler is the loop followed by the slice. *)
Lemma googleSearchHandler_calls (env : environment) (b : search_body) :
  truthy_str (GOOGLE_API_KEY env) = true ->
  truthy_str (GOOGLE_CX env) = true ->
  calls (googleSearchHandler env b) =
  fst (search_loop (template (GOOGLE_API_KEY env)) (template (GOOGLE_CX env))
         (jobTitle b) (location b) (default_maxResults (maxResults b))
         (Z.to_nat (ceil_div10 (default_maxResults (maxResults b)))) 0 []).
Proof.
  intros Hk Hc. unfold googleSearchHandler. cbv zeta.
  rewrite (credentials_present env Hk Hc). rewrite calls_try_catch.
  unfold bind. destruct (search_loop _ _ _ _ _ _ _ _) as [t [e | rs]]; simpl.
  - reflexivity.
  - apply app_nil_r.
Qed.

Lemma googleSearchHandler_results (env : environment) (b : search_body) (rs : list jsval) :
  sent (googleSearchHandler env b) = json (Results rs) ->
  exists allResults,
    snd (search_loop (template (GOOGLE_API_KEY env)) (template (GOOGLE_CX env))
           (jobTitle b) (location b) (default_maxResults (maxResults b))
           (Z.to_nat (ceil_div10 (default_maxResults (maxResults b)))) 0 []) = inr allResults
    /\ rs = slice0 allResults (default_maxResults (maxResults b)).
Proof.
  unfold googleSearchHandler. cbv zeta.
  destruct (negb _ || negb _); [discriminate |].
  unfold bind. destruct (search_loop _ _ _ _ _ _ _ _) as [t [e | all]]; simpl.
  - discriminate.
  - intros H. inversion H. eauto.
Qed.

Lemma slice0_length {A} (l : list A) (e : Z) :
  0 <= e -> Z.of_nat (List.length (slice0 l e)) <= e.
Proof.
  intros He. unfold slice0.
  destruct (e <? 0) eqn:E; [apply Z.ltb_lt in E; lia |].
  rewrite length_firstn. lia.
Qed.

Lemma slice0_nil {A} (e : Z) : slice0 (@nil A) e = [].
Proof. unfold slice0. destruct (e <? 0); apply firstn_nil. Qed.

(** No iteration runs when the requested count is zero or negative. *)
Lemma no_request_needed (m : Z) : m <= 0 -> Z.to_nat (ceil_div10 m) = 0%nat.
Proof. intros Hm. pose proof (ceil_div10_spec m). lia. Qed.

Lemma googleSearchHandler_no_credentials (env : environment) (b : search_body) :
  truthy_str (GOOGLE_API_KEY env) = false \/ truthy_str (GOOGLE_CX env) = false ->
  googleSearchHandler env b =
  Run [] (status_json 500 (Error (Text missing_search_credentials))).
Proof.
  intros H. unfold googleSearchHandler. cbv zeta.
  destruct H as [-> | ->]; [reflexivity |].
  rewrite orb_true_r. reflexivity.
Qed.

(** The search handler answers with a result list or with status 500. *)
Lemma googleSearchHandler_sent (env : environment) (b : search_body) :
  (exists rs, sent (googleSearchHandler env b) = json (Results rs))
  \/ (exists e, sent (googleSearchHandler env b) = status_json 500 (Error e)).
Proof.
  unfold googleSearchHandler. cbv zeta.
  destruct (negb _ || negb _); [right; simpl; eauto |].
  unfold bind. destruct (search_loop _ _ _ _ _ _ _ _) as [t [e | all]]; simpl; eauto.
Qed.

Lemma query_names_undefined (location : option string) :
  contains "Looking for undefined" (search_query None location) = true.
Proof. reflexivity. Qed.

Lemma search_to_spreadsheet_requires_jobTitle (env : environment)
    (b : search_to_spreadsheet_body) :
  s2s_jobTitle b = None ->
  post_search_to_spreadsheet env b = Run [] (status_json 400 (Error (Text missing_jobTitle))).
Proof. intros H. unfold post_search_to_spreadsheet. rewrite H. reflexivity. Qed.

Lemma search_to_excel_requires_jobTitle (env : environment) (b : search_to_excel_body) :
  s2e_jobTitle b = None ->
  post_search_to_excel env b = Run [] (status_json 400 (Error (Text missing_jobTitle))).
Proof. intros H. unfold post_search_to_excel. rewrite H. reflexivity. Qed.

(** *** Claims about the search handler *)

(** When the loop goes on after a call: the page answered is not empty, it
    is formatted without a throw, the results gathered so far stay below
    maxResults and iterations are left. *)
Lemma search_loop_continues apiKey cx_id jobTitle location maxResults n :
  forall i allResults j p,
    nth_error (fst (search_loop apiKey cx_id jobTitle location maxResults n i allResults)) j
    = Some (CustomSearch p) ->
    ((S j < List.length
              (fst (search_loop apiKey cx_id jobTitle location maxResults n i allResults)))%nat
     <->
     (exists page formatted,
         axios_get p = inr (Some page) /\ page <> []
         /\ snd (mapM format_result page) = inr formatted)
     /\ Z.of_nat (List.length
                    (allResults
                     ++ gathered (firstn (S j)
                                    (fst (search_loop apiKey cx_id jobTitle location
                                            maxResults n i allResults)))))
        < maxResults
     /\ (S j < n)%nat).
Proof.
  induction n as [| n IH]; intros i allResults j p.
  - simpl. destruct j; discriminate.
  - rewrite search_loop_step. cbv zeta.
    set (p0 := params_at apiKey cx_id jobTitle location i).
    assert (Hsingle :
              ~ ((exists page formatted,
                     axios_get p0 = inr (Some page) /\ page <> []
                     /\ snd (mapM format_result page) = inr formatted)
                 /\ Z.of_nat (List.length (allResults ++ formatted_page p0)) < maxResults) ->
              nth_error [CustomSearch p0] j = Some (CustomSearch p) ->
              ((S j < List.length [CustomSearch p0])%nat <->
               (exists page formatted,
                   axios_get p = inr (Some page) /\ page <> []
                   /\ snd (mapM format_result page) = inr formatted)
               /\ Z.of_nat (List.length
                              (allResults ++ gathered (firstn (S j) [CustomSearch p0])))
                  < maxResults
               /\ (S j < S n)%nat)).
    { intros Hno Hj. destruct j as [| j]; [| destruct j; discriminate].
      inversion Hj. subst p. split; [simpl; lia |].
      intros (Hpage & Hcount & _). exfalso. apply Hno. split; [exact Hpage |].
      cbn [firstn gathered flat_map] in Hcount. rewrite app_nil_r in Hcount. exact Hcount. }
    destruct (axios_get p0) as [m | [[| item pg] |]] eqn:Ha.
    + apply Hsingle. intros [(page & fm & H & _) _]. discriminate.
    + apply Hsingle. intros [(page & fm & H & Hne & _) _]. inversion H. subst. contradiction.
    + destruct (snd (mapM format_result (item :: pg))) as [e | rs] eqn:Hm.
      { apply Hsingle. intros [(page & fm & H & _ & Hf) _]. inversion H. subst page.
        rewrite Hm in Hf. discriminate. }
      assert (Hfp : formatted_page p0 = rs).
      { unfold formatted_page. rewrite Ha, Hm. reflexivity. }
      destruct (Z.of_nat (List.length (allResults ++ rs)) >=? maxResults) eqn:Hge.
      { apply Hsingle. intros [_ Hcount]. rewrite Hfp in Hcount.
        apply Z.geb_le in Hge. lia. }
      specialize (IH (i + 1) (allResults ++ rs)).
      pose proof (search_loop_calls_le apiKey cx_id jobTitle location maxResults n (i + 1)
                    (allResults ++ rs)) as Hle.
      assert (Hfirst : (0 < n)%nat ->
                       (0 < List.length
                              (fst (search_loop apiKey cx_id jobTitle location maxResults n
                                      (i + 1) (allResults ++ rs))))%nat).
      { destruct n as [| n']; [lia |]. intros _.
        destruct (search_loop_first_call apiKey cx_id jobTitle location maxResults n'
                    (i + 1) (allResults ++ rs)) as [rest ->]. simpl. lia. }
      destruct (search_loop _ _ _ _ _ n (i + 1) (allResults ++ rs)) as [t r].
      cbn [fst snd] in *. rewrite Z.geb_leb in Hge. apply Z.leb_gt in Hge.
      destruct j as [| j]; cbn [nth_error]; intros Hj.
      * inversion Hj. subst p. cbn [firstn gathered flat_map List.length].
        rewrite Hfp, app_nil_r. split.
        -- intros Hlt. split.
           { exists (item :: pg), rs.
             split; [exact Ha |]. split; [discriminate | exact Hm]. }
           split; [exact Hge | lia].
        -- intros (_ & _ & Hn). assert (H0 : (0 < n)%nat) by lia.
           apply Hfirst in H0. lia.
      * specialize (IH j p Hj). cbn [firstn gathered flat_map List.length].
        rewrite Hfp. fold (gathered (firstn (S j) t)).
        rewrite app_assoc. split.
        -- intros Hlt. destruct (proj1 IH) as (Hpage & Hcount & Hn); [lia |].
           split; [exact Hpage |]. split; [exact Hcount | lia].
        -- intros (Hpage & Hcount & Hn).
           assert (S j < List.length t)%nat; [| lia].
           apply (proj2 IH). split; [exact Hpage |]. split; [exact Hcount | lia].
    + apply Hsingle. intros [(page & fm & H & _) _]. discriminate.
Qed.

(** C1 (as amended).  With both credentials set: for 1 <= maxResults <= 10
    the handler issues exactly one search call, the one for start index 1;
    for 10 < maxResults <= 20 it issues at most two, and it issues the second
    one exactly when the first page is non-empty, is formatted without a
    throw and holds fewer than maxResults items.  For every maxResults, a
    further call follows the call number j (counted from 0) exactly when the
    page answered to it is non-empty and formatted without a throw, the
    results gathered up to it are fewer than maxResults, and
    10 (j + 1) < maxResults.  A non-empty page of fewer than 10 items
    therefore does not stop the loop. *)
Theorem search_call_count (env : environment) (b : search_body) :
  truthy_str (GOOGLE_API_KEY env) = true ->
  truthy_str (GOOGLE_CX env) = true ->
  let m := default_maxResults (maxResults b) in
  let first := params_at (template (GOOGLE_API_KEY env)) (template (GOOGLE_CX env))
                 (jobTitle b) (location b) 0 in
  let r := googleSearchHandler env b in
  (1 <= m <= 10 -> calls r = [CustomSearch first])
  /\ (10 < m <= 20 ->
      (List.length (calls r) <= 2)%nat
      /\ (List.length (calls r) = 2%nat <->
          exists page formatted,
            axios_get first = inr (Some page) /\ page <> []
            /\ snd (mapM format_result page) = inr formatted
            /\ Z.of_nat (List.length page) < m))
  /\ (forall j p,
        nth_error (calls r) j = Some (CustomSearch p) ->
        ((S j < List.length (calls r))%nat <->
         (exists page formatted,
             axios_get p = inr (Some page) /\ page <> []
             /\ snd (mapM format_result page) = inr formatted)
         /\ Z.of_nat (List.length (gathered (firstn (S j) (calls r)))) < m
         /\ 10 * Z.of_nat (S j) < m)).
Proof.
  intros Hk Hc m first r. subst r.
  rewrite (googleSearchHandler_calls env b Hk Hc). fold m.
  pose proof (ceil_div10_spec m) as Hm.
  split; [| split]; [intros Hr | intros Hr |].
  - replace (Z.to_nat (ceil_div10 m)) with 1%nat by lia.
    apply search_loop_one_call.
  - replace (Z.to_nat (ceil_div10 m)) with 2%nat by lia.
    rewrite search_loop_step. cbv zeta. fold first.
    destruct (axios_get first) as [message | [[| item page] |]].
    + simpl. split; [lia |]. split; [lia |].
      intros (pg & fm & H & _). discriminate.
    + simpl. split; [lia |]. split; [lia |].
      intros (pg & fm & H & Hne & _). inversion H. subst pg. contradiction.
    + destruct (snd (mapM format_result (item :: page))) as [e | rs] eqn:Hf.
      * simpl. split; [lia |]. split; [lia |].
        intros (pg & fm & H & _ & Hs & _). inversion H. subst pg.
        rewrite Hf in Hs. discriminate.
      * pose proof (mapM_length _ _ _ Hf) as Hlen.
        destruct (Z.of_nat (List.length ([] ++ rs)) >=? m) eqn:Hge.
        -- simpl. split; [lia |]. split; [lia |].
           intros (pg & fm & H & _ & _ & Hlt). inversion H. subst pg.
           simpl in Hge. apply Z.geb_le in Hge. rewrite Hlen in Hge. lia.
        -- pose proof (search_loop_one_call (template (GOOGLE_API_KEY env))
                        (template (GOOGLE_CX env)) (jobTitle b) (location b) m
                        (0 + 1) ([] ++ rs)) as Hone.
           destruct (search_loop _ _ _ _ m 1 (0 + 1) ([] ++ rs)) as [t x].
           simpl in Hone. subst t. simpl. split; [lia |]. split; [| reflexivity].
           intros _. exists (item :: page), rs.
           repeat split; try assumption; try discriminate.
           simpl in Hge. rewrite Z.geb_leb in Hge. apply Z.leb_gt in Hge.
           rewrite <- Hlen. exact Hge.
    + simpl. split; [lia |]. split; [lia |].
      intros (pg & fm & H & _). discriminate.
  - intros j p Hj.
    pose proof (search_loop_continues (template (GOOGLE_API_KEY env))
                  (template (GOOGLE_CX env)) (jobTitle b) (location b) m
                  (Z.to_nat (ceil_div10 m)) 0 [] j p Hj) as L.
    cbn [app] in L. rewrite L.
    split; intros (Hpage & Hcount & Hn); (split; [exact Hpage |]);
      (split; [exact Hcount | lia]).
Qed.

(** C2 (as amended).  Whenever the handler answers with a result list, the
    list holds at most max(0, maxResults) results, where maxResults is the
    requested number or 50 when the body has none. *)
Theorem results_bounded (env : environment) (b : search_body) (rs : list jsval) :
  sent (googleSearchHandler env b) = json (Results rs) ->
  Z.of_nat (List.length rs) <= Z.max 0 (default_maxResults (maxResults b)).
Proof.
  intros H. apply googleSearchHandler_results in H.
  destruct H as (allResults & Hloop & ->).
  set (m := default_maxResults (maxResults b)) in *.
  destruct (Z.le_gt_cases 0 m) as [Hm | Hm].
  - pose proof (slice0_length allResults m Hm). lia.
  - rewrite (no_request_needed m) in Hloop by lia.
    simpl in Hloop. inversion Hloop. rewrite slice0_nil. simpl. lia.
Qed.

(** C4.  When GOOGLE_API_KEY or GOOGLE_CX is absent the search handler
    answers with status 500 and a message that names both variables, and it
    issues no call. *)
Theorem search_credentials_required (env : environment) (b : search_body) :
  GOOGLE_API_KEY env = None \/ GOOGLE_CX env = None ->
  googleSearchHandler env b =
    Run [] (status_json 500 (Error (Text missing_search_credentials)))
  /\ http_status (sent (googleSearchHandler env b)) = 500
  /\ calls (googleSearchHandler env b) = []
  /\ contains "GOOGLE_API_KEY" missing_search_credentials = true
  /\ contains "GOOGLE_CX" missing_search_credentials = true.
Proof.
  intros H.
  assert (E : googleSearchHandler env b =
              Run [] (status_json 500 (Error (Text missing_search_credentials)))).
  { apply googleSearchHandler_no_credentials.
    destruct H as [-> | ->]; [left | right]; reflexivity. }
  rewrite E. repeat split.
Qed.

(** C9.  A body without jobTitle is not rejected by /api/search nor by
    /google_search: the answer never has status 400, every search call issued
    carries a query containing the text Looking for undefined, and with both
    credentials set and maxResults at least 1 such a call is issued.  The two
    composite routes answer the same omission with status 400. *)
Theorem search_without_jobTitle (env : environment) (b : search_body) :
  jobTitle b = None ->
  let r := post_api_search env b in
  post_google_search env b = r
  /\ http_status (sent r) <> 400
  /\ (forall c, In c (calls r) ->
        exists p, c = CustomSearch p /\ contains "Looking for undefined" (q p) = true)
  /\ (truthy_str (GOOGLE_API_KEY env) = true ->
      truthy_str (GOOGLE_CX env) = true ->
      1 <= default_maxResults (maxResults b) ->
      exists p rest,
        calls r = CustomSearch p :: rest
        /\ start p = 1 /\ contains "Looking for undefined" (q p) = true)
  /\ (forall b1 b2, s2s_jobTitle b1 = None -> s2e_jobTitle b2 = None ->
        http_status (sent (post_search_to_spreadsheet env b1)) = 400
        /\ http_status (sent (post_search_to_excel env b2)) = 400).
Proof.
  intros Hj r. subst r. unfold post_google_search, post_api_search.
  split; [reflexivity |]. split; [| split; [| split]].
  - destruct (googleSearchHandler_sent env b) as [[rs ->] | [e ->]]; simpl; lia.
  - intros c Hin.
    destruct (truthy_str (GOOGLE_API_KEY env)) eqn:Hk;
      [destruct (truthy_str (GOOGLE_CX env)) eqn:Hc |].
    + rewrite (googleSearchHandler_calls env b Hk Hc) in Hin.
      apply search_loop_queries in Hin. destruct Hin as [j ->].
      eexists. split; [reflexivity |]. rewrite Hj. apply query_names_undefined.
    + rewrite googleSearchHandler_no_credentials in Hin by (right; assumption).
      destruct Hin.
    + rewrite googleSearchHandler_no_credentials in Hin by (left; assumption).
      destruct Hin.
  - intros Hk Hc Hm.
    rewrite (googleSearchHandler_calls env b Hk Hc).
    pose proof (ceil_div10_spec (default_maxResults (maxResults b))) as Hs.
    destruct (Z.to_nat (ceil_div10 (default_maxResults (maxResults b)))) as [| n] eqn:Hn;
      [lia |].
    destruct (search_loop_first_call (template (GOOGLE_API_KEY env))
                (template (GOOGLE_CX env)) (jobTitle b) (location b)
                (default_maxResults (maxResults b)) n 0 []) as [rest ->].
    eexists. exists rest. split; [reflexivity |]. split; [reflexivity |].
    rewrite Hj. apply query_names_undefined.
  - intros b1 b2 H1 H2.
    rewrite search_to_spreadsheet_requires_jobTitle by assumption.
    rewrite search_to_excel_requires_jobTitle by assumption.
    split; reflexivity.
Qed.

(** C10.  With both credentials set and maxResults zero or negative, the
    search handler issues no search call and answers with status 200 and an
    empty result list. *)
Theorem nonpositive_maxResults (env : environment) (b : search_body) :
  truthy_str (GOOGLE_API_KEY env) = true ->
  truthy_str (GOOGLE_CX env) = true ->
  default_maxResults (maxResults b) <= 0 ->
  googleSearchHandler env b = Run [] (json (Results []))
  /\ calls (googleSearchHandler env b) = []
  /\ http_status (sent (googleSearchHandler env b)) = 200.
Proof.
  intros Hk Hc Hm.
  assert (E : googleSearchHandler env b = Run [] (json (Results []))).
  { unfold googleSearchHandler. cbv zeta.
    rewrite (credentials_present env Hk Hc).
    rewrite (no_request_needed _ Hm). simpl. rewrite slice0_nil. reflexivity. }
  rewrite E. repeat split.
Qed.

(** *** The export handlers *)

Lemma truthy_not_nullish (v : jsval) : truthy v = true -> nullish v = false.
Proof. destruct v; simpl; congruence. Qed.

Lemma sheet_row_cells (item : jsval) :
  nullish item = false -> sheet_row item = ret (sheet_cells item).
Proof. intros H. unfold sheet_row. rewrite !get_prop_read by assumption. reflexivity. Qed.

Lemma excel_row_cells (item : jsval) :
  nullish item = false -> excel_row item = ret (excel_cells item).
Proof. intros H. unfold excel_row. rewrite !get_prop_read by assumption. reflexivity. Qed.

Lemma sheet_row_pure (item : jsval) : pure_step (sheet_row item).
Proof.
  unfold sheet_row. repeat (apply bind_pure; [apply get_prop_pure | intros ?]).
  reflexivity.
Qed.

Lemma excel_row_throws (item : jsval) :
  nullish item = true -> excel_row item = throw (NullishAccess item "title").
Proof. intros H. unfold excel_row, get_prop. rewrite H. reflexivity. Qed.

(** Mapping over an array that holds undefined or null throws at the first
    such element, without any call. *)
Lemma mapM_excel_row_throws (items : list jsval) :
  Exists (fun x => nullish x = true) items ->
  exists v, mapM excel_row items = throw (NullishAccess v "title").
Proof.
  induction items as [| x items IH]; intros H.
  - inversion H.
  - destruct (nullish x) eqn:Hx.
    + exists x. simpl. rewrite (excel_row_throws x Hx). reflexivity.
    + assert (Hrest : Exists (fun x => nullish x = true) items).
      { inversion H; subst; [congruence | assumption]. }
      destruct (IH Hrest) as [v Hv]. exists v.
      simpl. rewrite (excel_row_cells x Hx), Hv. reflexivity.
Qed.

(** The handler once the credentials parse to a truthy value. *)
Lemma createSpreadsheetHandler_usable (env : environment) (b : spreadsheet_body)
    (credentials : jsval) :
  JSON_parse (template (GOOGLE_SHEETS_CREDENTIALS env)) = Some credentials ->
  truthy credentials = true ->
  createSpreadsheetHandler env b =
  let auth := jwt_of credentials in
  let create := mkCreate (title b) "Job Listings" (Z.of_nat (List.length (data b)) + 1) 4 in
  try_catch_500 (
    spreadsheetId <- await (SpreadsheetsCreate auth create) (spreadsheets_create auth create) ;;
    rows <- mapM sheet_row (data b) ;;
    let update := mkUpdate spreadsheetId "Job Listings!A1" "RAW" (header_row :: rows) in
    await (ValuesUpdate auth update) (values_update auth update) ;;;
    let permission := mkPermission spreadsheetId "writer" "anyone" in
    await (PermissionsCreate auth permission) (permissions_create auth permission) ;;;
    ret (json (Spreadsheet spreadsheetId (spreadsheet_url spreadsheetId)
                 (List.length (data b))))).
Proof.
  intros Hp Ht. unfold createSpreadsheetHandler, parse_credentials.
  rewrite Hp. cbv zeta. rewrite bind_ret_l. cbv beta. rewrite Ht. cbn [negb].
  rewrite !(get_prop_read credentials) by (apply truthy_not_nullish; assumption).
  rewrite !bind_ret_l. reflexivity.
Qed.

(** The same, spelled out by the answers of the services. *)
Lemma createSpreadsheetHandler_cases (env : environment) (b : spreadsheet_body)
    (credentials : jsval) :
  JSON_parse (template (GOOGLE_SHEETS_CREDENTIALS env)) = Some credentials ->
  truthy credentials = true ->
  createSpreadsheetHandler env b =
  let auth := jwt_of credentials in
  let create := mkCreate (title b) "Job Listings" (Z.of_nat (List.length (data b)) + 1) 4 in
  match spreadsheets_create auth create with
  | inl m =>
      Run [SpreadsheetsCreate auth create] (status_json 500 (Error (Message (UpstreamError m))))
  | inr spreadsheetId =>
      match snd (mapM sheet_row (data b)) with
      | inl e => Run [SpreadsheetsCreate auth create] (status_json 500 (Error (Message e)))
      | inr rows =>
          let update := mkUpdate spreadsheetId "Job Listings!A1" "RAW" (header_row :: rows) in
          match values_update auth update with
          | inl m =>
              Run [SpreadsheetsCreate auth create; ValuesUpdate auth update]
                  (status_json 500 (Error (Message (UpstreamError m))))
          | inr _ =>
              let permission := mkPermission spreadsheetId "writer" "anyone" in
              match permissions_create auth permission with
              | inl m =>
                  Run [SpreadsheetsCreate auth create; ValuesUpdate auth update;
                       PermissionsCreate auth permission]
                      (status_json 500 (Error (Message (UpstreamError m))))
              | inr _ =>
                  Run [SpreadsheetsCreate auth create; ValuesUpdate auth update;
                       PermissionsCreate auth permission]
                      (json (Spreadsheet spreadsheetId (spreadsheet_url spreadsheetId)
                               (List.length (data b))))
              end
          end
      end
  end.
Proof.
  intros Hp Ht. rewrite (createSpreadsheetHandler_usable env b credentials Hp Ht).
  cbv zeta. unfold bind, await.
  destruct (spreadsheets_create _ _) as [m | id]; [reflexivity |].
  pose proof (mapM_pure sheet_row (data b) sheet_row_pure) as Hpure.
  unfold pure_step in Hpure.
  destruct (mapM sheet_row (data b)) as [t [e | rows]]; simpl in Hpure; subst t;
    [reflexivity |].
  cbn [snd].
  destruct (values_update _ _) as [m | u]; [reflexivity |].
  destruct (permissions_create _ _) as [m | u']; reflexivity.
Qed.

(** The call [c] of the log was rejected with [message], or it was answered. *)
Ltac settle_rejection Hin Hrej :=
  simpl in Hin;
  repeat (destruct Hin as [<- | Hin];
          [simpl in Hrej;
           repeat match goal with
                  | E : _ = inl _ |- _ => rewrite E in Hrej
                  | E : _ = inr _ |- _ => rewrite E in Hrej
                  end;
           first [discriminate Hrej | inversion Hrej; subst; reflexivity] |]);
  try contradiction.

Lemma createSpreadsheetHandler_rejected (env : environment) (b : spreadsheet_body)
    (c : call) (message : string) :
  In c (calls (createSpreadsheetHandler env b)) ->
  rejection c = Some message ->
  sent (createSpreadsheetHandler env b) =
  status_json 500 (Error (Message (UpstreamError message))).
Proof.
  destruct (JSON_parse (template (GOOGLE_SHEETS_CREDENTIALS env))) as [v |] eqn:Hp.
  - destruct (truthy v) eqn:Ht.
    + rewrite (createSpreadsheetHandler_cases env b v Hp Ht). cbv zeta.
      clear Hp Ht.
      destruct (spreadsheets_create _ _) as [m | id] eqn:Hcreate.
      { intros Hin Hrej. settle_rejection Hin Hrej. }
      destruct (snd (mapM sheet_row (data b))) as [e | rows].
      { intros Hin Hrej. settle_rejection Hin Hrej. }
      destruct (values_update _ _) as [m | u] eqn:Hupdate.
      { intros Hin Hrej. settle_rejection Hin Hrej. }
      destruct (permissions_create _ _) as [m | u'] eqn:Hperm;
        intros Hin Hrej; settle_rejection Hin Hrej.
    + unfold createSpreadsheetHandler, parse_credentials.
      rewrite Hp, bind_ret_l, Ht. simpl. contradiction.
  - unfold createSpreadsheetHandler, parse_credentials. rewrite Hp. simpl. contradiction.
Qed.

(** *** Claims about the spreadsheet export *)

(** C3 (as amended).  When the text of GOOGLE_SHEETS_CREDENTIALS is rejected
    by JSON.parse the handler answers with status 500 and the message of the
    parser's SyntaxError, and issues no call; when the text parses to a falsy
    value it answers with status 500 and the message that names
    GOOGLE_SHEETS_CREDENTIALS; and whenever one of the calls it issued
    (creation, write or permission) was rejected, it answers with status 500
    and the message of that rejection. *)
Theorem spreadsheet_failures (env : environment) (b : spreadsheet_body) :
  let r := createSpreadsheetHandler env b in
  (forall text,
      GOOGLE_SHEETS_CREDENTIALS env = Some text -> JSON_parse text = None ->
      r = Run [] (status_json 500 (Error (Message (SyntaxError text)))))
  /\ (forall text v,
        GOOGLE_SHEETS_CREDENTIALS env = Some text -> JSON_parse text = Some v ->
        truthy v = false ->
        r = Run [] (status_json 500 (Error (Text missing_sheets_credentials)))
        /\ contains "GOOGLE_SHEETS_CREDENTIALS" missing_sheets_credentials = true)
  /\ (forall c message,
        In c (calls r) -> rejection c = Some message ->
        sent r = status_json 500 (Error (Message (UpstreamError message)))).
Proof.
  cbv zeta. split; [| split].
  - intros text He Hp. unfold createSpreadsheetHandler, parse_credentials.
    rewrite He. simpl. rewrite Hp. reflexivity.
  - intros text v He Hp Ht. split; [| reflexivity].
    unfold createSpreadsheetHandler, parse_credentials.
    rewrite He. simpl template. rewrite Hp, bind_ret_l, Ht. reflexivity.
  - intros c message. apply createSpreadsheetHandler_rejected.
Qed.

(** C8.  With credentials that parse to a truthy value, a result list whose
    elements are neither undefined nor null, and the three calls answered:
    the handler issues, in this order, one creation of a document with the
    given title and a sheet Job Listings of data.length + 1 rows and 4
    columns, one update writing at A1 the header row followed by one row of
    four cells per result, and one permission making anyone a writer of the
    document; it answers with the document identifier, the URL built from
    it and the number of results. *)
Theorem spreadsheet_created (env : environment) (b : spreadsheet_body)
    (credentials : jsval) (spreadsheetId : string) :
  JSON_parse (template (GOOGLE_SHEETS_CREDENTIALS env)) = Some credentials ->
  truthy credentials = true ->
  Forall (fun item => nullish item = false) (data b) ->
  let auth := jwt_of credentials in
  let n := List.length (data b) in
  let create := mkCreate (title b) "Job Listings" (Z.of_nat n + 1) 4 in
  let rows := header_row :: map sheet_cells (data b) in
  let update := mkUpdate spreadsheetId "Job Listings!A1" "RAW" rows in
  let permission := mkPermission spreadsheetId "writer" "anyone" in
  spreadsheets_create auth create = inr spreadsheetId ->
  values_update auth update = inr tt ->
  permissions_create auth permission = inr tt ->
  createSpreadsheetHandler env b =
    Run [SpreadsheetsCreate auth create; ValuesUpdate auth update;
         PermissionsCreate auth permission]
        (json (Spreadsheet spreadsheetId (spreadsheet_url spreadsheetId) n))
  /\ header_row = [VStr "Title"; VStr "Link"; VStr "Description"; VStr "Source"]
  /\ Z.of_nat (List.length rows) = rowCount create
  /\ Forall (fun row => Z.of_nat (List.length row) = columnCount create) rows
  /\ spreadsheet_url spreadsheetId =
     ("https://docs.google.com/spreadsheets/d/" ++ spreadsheetId ++ "/edit?usp=sharing")%string.
Proof.
  intros Hp Ht Hitems auth n create rows update permission Hcreate Hupdate Hperm.
  split; [| split; [| split; [| split]]].
  - rewrite (createSpreadsheetHandler_cases env b credentials Hp Ht). cbv zeta.
    fold auth. fold n. fold create. rewrite Hcreate.
    assert (Hrows : mapM sheet_row (data b) = ret (map sheet_cells (data b))).
    { apply mapM_ret. eapply Forall_impl; [| exact Hitems].
      intros item. apply sheet_row_cells. }
    rewrite Hrows. cbn [snd ret]. fold rows. fold update. rewrite Hupdate.
    fold permission. rewrite Hperm. reflexivity.
  - reflexivity.
  - subst rows create. cbn [List.length rowCount]. rewrite length_map. fold n. lia.
  - subst rows create. cbn [columnCount]. constructor; [reflexivity |].
    apply Forall_map. apply Forall_forall. intros item _. reflexivity.
  - reflexivity.
Qed.

(** *** Claims about the file export *)

Lemma exportToExcelHandler_rejects (b : excel_body) :
  truthy (excel_data b) = false \/ isArray (excel_data b) = false \/ excel_data b = VArr [] ->
  exportToExcelHandler b = Run [] (status_json 400 (Error (Text invalid_data_format))).
Proof.
  intros H. unfold exportToExcelHandler. cbv zeta.
  destruct H as [-> | [-> | ->]]; [reflexivity | | reflexivity].
  rewrite orb_true_r. reflexivity.
Qed.

(** On a non-empty array without undefined or null the handler reaches the
    encoder with the header row and one row per element. *)
Lemma exportToExcelHandler_encodes (b : excel_body) (item : jsval) (items : list jsval) :
  excel_data b = VArr (item :: items) ->
  Forall (fun x => nullish x = false) (item :: items) ->
  let rows := header_row :: map excel_cells (item :: items) in
  exportToExcelHandler b =
  Run [BookNew; XlsxWrite rows]
      (excel_answer (default_filename_xlsx (filename b)) (XLSX_write rows)).
Proof.
  intros Hd Hitems rows. unfold exportToExcelHandler. cbv zeta. rewrite Hd.
  cbn [truthy isArray negb orb array_elems].
  replace (Z.of_nat (List.length (item :: items)) =? 0) with false
    by (symmetry; apply Z.eqb_neq; simpl List.length; lia).
  assert (Hrows : mapM excel_row (item :: items) = ret (map excel_cells (item :: items))).
  { apply mapM_ret. eapply Forall_impl; [| exact Hitems].
    intros x. apply excel_row_cells. }
  unfold library, bind at 1. rewrite Hrows, bind_ret_l. fold rows.
  unfold library_call, bind at 1.
  destruct (XLSX_write rows) as [message | excelBuffer]; [reflexivity |].
  unfold excel_answer, rejected_header, excel_headers, setHeader. cbn [find fst snd].
  destruct (header_accepted "Content-Type" _); [| reflexivity].
  destruct (header_accepted "Content-Disposition" _); [| reflexivity].
  destruct (header_accepted "Content-Length" _); reflexivity.
Qed.

Lemma rejected_header_none (headers : list (string * header_value)) :
  (forall name value, In (name, value) headers -> header_accepted name value = true) ->
  rejected_header headers = None.
Proof.
  intros H. unfold rejected_header.
  destruct (find _ headers) as [[name value] |] eqn:Hf; [| reflexivity].
  apply find_some in Hf. destruct Hf as [Hin Hr]. simpl in Hr.
  rewrite (H name value Hin) in Hr. discriminate.
Qed.

Lemma rejected_header_some (headers : list (string * header_value)) :
  (exists name value, In (name, value) headers /\ header_accepted name value = false) ->
  exists name value,
    rejected_header headers = Some (name, value)
    /\ In (name, value) headers /\ header_accepted name value = false.
Proof.
  intros (name & value & Hin & Hr). unfold rejected_header.
  destruct (find _ headers) as [[n v] |] eqn:Hf.
  - apply find_some in Hf. destruct Hf as [Hin' Hr']. simpl in Hr'.
    exists n, v. split; [reflexivity |]. split; [exact Hin' |].
    destruct (header_accepted n v); [discriminate | reflexivity].
  - pose proof (find_none _ _ Hf _ Hin) as Hn. simpl in Hn. rewrite Hr in Hn. discriminate.
Qed.

Lemma exportToExcelHandler_throws (b : excel_body) (items : list jsval) :
  excel_data b = VArr items ->
  Exists (fun x => nullish x = true) items ->
  exists v,
    exportToExcelHandler b =
    Run [BookNew] (status_json 500 (Error (Message (NullishAccess v "title")))).
Proof.
  intros Hd Hex. destruct (mapM_excel_row_throws items Hex) as [v Hv].
  exists v. unfold exportToExcelHandler. cbv zeta. rewrite Hd.
  cbn [truthy isArray negb orb array_elems].
  destruct items as [| x items]; [inversion Hex |].
  replace (Z.of_nat (List.length (x :: items)) =? 0) with false
    by (symmetry; apply Z.eqb_neq; simpl List.length; lia).
  unfold library, bind at 1. rewrite Hv. reflexivity.
Qed.

(** C6 (as amended).  When the data is falsy (absent included), is not an
    array or is the empty array, the handler answers with status 400 and the
    invalid-data message and makes no workbook.  When it is a non-empty
    array none of whose elements is undefined or null, the handler makes one
    workbook and hands the encoder the header row and one row per element,
    a function of the data alone; it sends the bytes when the encoder returns
    them and the three response headers are taken, and it answers with status
    500 and the message of the error when the encoder throws or a header
    value is refused.  When the array holds an element that is undefined or
    null, the handler encodes nothing and answers with status 500 and the
    message of the TypeError. *)
Theorem export_validation (b : excel_body) :
  let data := excel_data b in
  let r := exportToExcelHandler b in
  (truthy data = false \/ isArray data = false \/ data = VArr [] ->
   r = Run [] (status_json 400 (Error (Text invalid_data_format))))
  /\ (forall item items,
        data = VArr (item :: items) ->
        Forall (fun x => nullish x = false) (item :: items) ->
        let rows := header_row :: map excel_cells (item :: items) in
        let headers := excel_headers (default_filename_xlsx (filename b)) in
        calls r = [BookNew; XlsxWrite rows]
        /\ (forall message,
              XLSX_write rows = inl message ->
              sent r = status_json 500 (Error (Message (LibraryError message))))
        /\ (forall excelBuffer,
              XLSX_write rows = inr excelBuffer ->
              (forall name value, In (name, value) (headers excelBuffer) ->
                                  header_accepted name value = true) ->
              sent r = send (headers excelBuffer) excelBuffer)
        /\ (forall excelBuffer,
              XLSX_write rows = inr excelBuffer ->
              (exists name value, In (name, value) (headers excelBuffer)
                                  /\ header_accepted name value = false) ->
              exists name value,
                In (name, value) (headers excelBuffer)
                /\ header_accepted name value = false
                /\ sent r = status_json 500 (Error (Message (InvalidHeader name value)))))
  /\ (forall items,
        data = VArr items ->
        Exists (fun x => nullish x = true) items ->
        exists v,
          r = Run [BookNew] (status_json 500 (Error (Message (NullishAccess v "title"))))).
Proof.
  cbv zeta. split; [| split].
  - apply exportToExcelHandler_rejects.
  - intros item items Hd Hi.
    rewrite (exportToExcelHandler_encodes b item items Hd Hi). cbv zeta. cbn [calls sent].
    split; [reflexivity |]. split; [| split].
    + intros message ->. reflexivity.
    + intros excelBuffer -> Hall. unfold excel_answer.
      rewrite (rejected_header_none _ Hall). reflexivity.
    + intros excelBuffer -> Hex. unfold excel_answer.
      destruct (rejected_header_some _ Hex) as (name & value & -> & Hin & Hr).
      exists name, value. auto.
  - intros items Hd He. apply exportToExcelHandler_throws with (items := items); assumption.
Qed.

(** C7.  For the one-element list of the specification the worksheet handed
    to the encoder is the header row Title, Link, Description, Source
    followed by the row A, http://x.com/1, s, x.com.  In general, for a
    non-empty array of results (none undefined or null) the worksheet is the
    header row followed by one row per result, in the order of the input;
    a row holds the four fields of its result, a falsy field as the empty
    string. *)
Theorem worksheet_rows (name : option string) :
  calls (exportToExcelHandler
           (mkExcelBody
              (VArr [VObj [("title", VStr "A"); ("link", VStr "http://x.com/1");
                           ("snippet", VStr "s"); ("source", VStr "x.com")]])
              name)) =
    [BookNew;
     XlsxWrite [[VStr "Title"; VStr "Link"; VStr "Description"; VStr "Source"];
                [VStr "A"; VStr "http://x.com/1"; VStr "s"; VStr "x.com"]]]
  /\ (forall b item items,
        excel_data b = VArr (item :: items) ->
        Forall (fun x => nullish x = false) (item :: items) ->
        exists rows,
          calls (exportToExcelHandler b) = [BookNew; XlsxWrite (header_row :: rows)]
          /\ List.length rows = List.length (item :: items)
          /\ (forall i x, nth_error (item :: items) i = Some x ->
                          nth_error rows i = Some (excel_cells x))).
Proof.
  split.
  - assert (Hi : Forall (fun x => nullish x = false)
                   [VObj [("title", VStr "A"); ("link", VStr "http://x.com/1");
                          ("snippet", VStr "s"); ("source", VStr "x.com")]])
      by (repeat constructor).
    rewrite (exportToExcelHandler_encodes (mkExcelBody (VArr [_]) name) _ [] eq_refl Hi).
    reflexivity.
  - intros b item items Hd Hi.
    exists (map excel_cells (item :: items)).
    rewrite (exportToExcelHandler_encodes b item items Hd Hi). cbv zeta.
    split; [reflexivity |]. split; [apply length_map |].
    intros i x Hx. apply map_nth_error. exact Hx.
Qed.

(** *** Claims about the composite routes *)

(** C5.  A body without jobTitle makes /api/search-to-spreadsheet and
    /api/search-to-excel answer with status 400 and a message saying that
    jobTitle is required; neither route issues a search call, an API call or
    an encoder call. *)
Theorem composite_requires_jobTitle (env : environment)
    (b1 : search_to_spreadsheet_body) (b2 : search_to_excel_body) :
  s2s_jobTitle b1 = None ->
  s2e_jobTitle b2 = None ->
  post_search_to_spreadsheet env b1 = Run [] (status_json 400 (Error (Text missing_jobTitle)))
  /\ post_search_to_excel env b2 = Run [] (status_json 400 (Error (Text missing_jobTitle)))
  /\ contains "jobTitle is required" missing_jobTitle = true.
Proof.
  intros H1 H2.
  rewrite (search_to_spreadsheet_requires_jobTitle env b1 H1).
  rewrite (search_to_excel_requires_jobTitle env b2 H2).
  repeat split.
Qed.

(** With the variable unset the text handed to the parser is the text
    undefined, which no JSON parser accepts: the handler then answers with the
    parser's error, and the test on the parsed value is not reached. *)
Lemma createSpreadsheetHandler_unset (env : environment) (b : spreadsheet_body) :
  GOOGLE_SHEETS_CREDENTIALS env = None ->
  JSON_parse "undefined" = None ->
  createSpreadsheetHandler env b =
  Run [] (status_json 500 (Error (Message (SyntaxError "undefined")))).
Proof.
  intros He Hp. unfold createSpreadsheetHandler, parse_credentials.
  rewrite He. simpl template. rewrite Hp. reflexivity.
Qed.

(** *** More on the search handler *)

Lemma googleSearchHandler_run (env : environment) (b : search_body) :
  truthy_str (GOOGLE_API_KEY env) = true ->
  truthy_str (GOOGLE_CX env) = true ->
  googleSearchHandler env b =
  match search_of env b with
  | (t, inl e) => Run t (status_json 500 (Error (Message e)))
  | (t, inr allResults) =>
      Run t (json (Results (slice0 allResults (default_maxResults (maxResults b)))))
  end.
Proof.
  intros Hk Hc. unfold googleSearchHandler, search_of. cbv zeta.
  rewrite (credentials_present env Hk Hc). unfold bind.
  destruct (search_loop _ _ _ _ _ _ _ _) as [t [e | rs]]; simpl.
  - reflexivity.
  - rewrite app_nil_r. reflexivity.
Qed.

(** Without credentials, or with them: the log is the log of the loop or empty. *)
Lemma googleSearchHandler_log (env : environment) (b : search_body) :
  calls (googleSearchHandler env b) = fst (search_of env b)
  \/ calls (googleSearchHandler env b) = [].
Proof.
  destruct (truthy_str (GOOGLE_API_KEY env)) eqn:Hk;
    [destruct (truthy_str (GOOGLE_CX env)) eqn:Hc |].
  - left. apply googleSearchHandler_calls; assumption.
  - right. rewrite googleSearchHandler_no_credentials by (right; assumption). reflexivity.
  - right. rewrite googleSearchHandler_no_credentials by (left; assumption). reflexivity.
Qed.

Lemma search_loop_nth apiKey cx_id jobTitle location maxResults n :
  forall i allResults k c,
    nth_error (fst (search_loop apiKey cx_id jobTitle location maxResults n i allResults)) k
    = Some c ->
    c = CustomSearch (params_at apiKey cx_id jobTitle location (i + Z.of_nat k)).
Proof.
  induction n as [| n IH]; intros i allResults k c.
  - simpl. destruct k; discriminate.
  - rewrite search_loop_step. cbv zeta.
    assert (Hone : nth_error [CustomSearch (params_at apiKey cx_id jobTitle location i)] k
                   = Some c ->
                   c = CustomSearch (params_at apiKey cx_id jobTitle location
                                       (i + Z.of_nat k))).
    { destruct k as [| [| k]]; simpl; intros H; inversion H.
      rewrite Z.add_0_r. reflexivity. }
    destruct (axios_get _) as [message | [[| item page] |]]; try exact Hone.
    destruct (snd (mapM format_result (item :: page))) as [e | rs]; [exact Hone |].
    destruct (_ >=? _); [exact Hone |].
    specialize (IH (i + 1) (allResults ++ rs)).
    destruct (search_loop _ _ _ _ _ n (i + 1) (allResults ++ rs)) as [t r].
    simpl fst in *. destruct k as [| k]; simpl.
    + intros H. inversion H. rewrite Z.add_0_r. reflexivity.
    + intros H. rewrite (IH k c H). do 2 f_equal. lia.
Qed.

(** A rejected call ends the loop with its message. *)
Lemma search_loop_rejected apiKey cx_id jobTitle location maxResults n :
  forall i allResults c message,
    In c (fst (search_loop apiKey cx_id jobTitle location maxResults n i allResults)) ->
    rejection c = Some message ->
    snd (search_loop apiKey cx_id jobTitle location maxResults n i allResults)
    = inl (UpstreamError message)
    /\ exists before,
        fst (search_loop apiKey cx_id jobTitle location maxResults n i allResults)
        = before ++ [c].
Proof.
  induction n as [| n IH]; intros i allResults c message.
  - simpl. contradiction.
  - rewrite search_loop_step. cbv zeta.
    destruct (axios_get _) as [m | [[| item page] |]] eqn:Ha.
    + simpl. intros [<- | []] Hr. simpl in Hr. rewrite Ha in Hr. inversion Hr.
      split; [reflexivity | exists []; reflexivity].
    + simpl. intros [<- | []] Hr. simpl in Hr. rewrite Ha in Hr. discriminate.
    + assert (Hans : forall c', c' = CustomSearch (params_at apiKey cx_id jobTitle location i)
                                -> rejection c' = Some message -> False).
      { intros c' -> Hr. simpl in Hr. rewrite Ha in Hr. discriminate. }
      destruct (snd (mapM format_result (item :: page))) as [e | rs].
      { simpl. intros [<- | []] Hr. exfalso. eapply Hans; eauto. }
      destruct (_ >=? _).
      { simpl. intros [<- | []] Hr. exfalso. eapply Hans; eauto. }
      specialize (IH (i + 1) (allResults ++ rs) c message).
      destruct (search_loop _ _ _ _ _ n (i + 1) (allResults ++ rs)) as [t r].
      simpl in *. intros [<- | Hin] Hr.
      * exfalso. eapply Hans; eauto.
      * destruct (IH Hin Hr) as [Hs [before Hb]]. split; [exact Hs |].
        exists (CustomSearch (params_at apiKey cx_id jobTitle location i) :: before).
        rewrite Hb. reflexivity.
    + simpl. intros [<- | []] Hr. simpl in Hr. rewrite Ha in Hr. discriminate.
Qed.

(** A page that cannot be formatted ends the loop with the error thrown. *)
Lemma search_loop_unformatted apiKey cx_id jobTitle location maxResults n :
  forall i allResults p page e,
    In (CustomSearch p)
       (fst (search_loop apiKey cx_id jobTitle location maxResults n i allResults)) ->
    axios_get p = inr (Some page) ->
    snd (mapM format_result page) = inl e ->
    snd (search_loop apiKey cx_id jobTitle location maxResults n i allResults) = inl e
    /\ exists before,
        fst (search_loop apiKey cx_id jobTitle location maxResults n i allResults)
        = before ++ [CustomSearch p].
Proof.
  induction n as [| n IH]; intros i allResults p page e.
  - simpl. contradiction.
  - rewrite search_loop_step. cbv zeta.
    destruct (axios_get (params_at apiKey cx_id jobTitle location i))
      as [m | [[| item pg] |]] eqn:Ha.
    + simpl. intros [H | []] Hp. inversion H. subst p. congruence.
    + simpl. intros [H | []] Hp Hf. inversion H. subst p.
      rewrite Ha in Hp. inversion Hp. subst page. simpl in Hf. discriminate.
    + destruct (snd (mapM format_result (item :: pg))) as [e' | rs] eqn:Hm.
      { simpl. intros [H | []] Hp Hf. inversion H. subst p.
        rewrite Ha in Hp. inversion Hp. subst page. rewrite Hm in Hf. inversion Hf.
        split; [reflexivity | exists []; reflexivity]. }
      assert (Hok : forall p', CustomSearch (params_at apiKey cx_id jobTitle location i)
                               = CustomSearch p' ->
                               axios_get p' = inr (Some page) ->
                               snd (mapM format_result page) = inl e -> False).
      { intros p' H Hp Hf. inversion H. subst p'.
        rewrite Ha in Hp. inversion Hp. subst page. rewrite Hm in Hf. discriminate. }
      destruct (_ >=? _).
      { simpl. intros [H | []] Hp Hf. exfalso. eapply Hok; eauto. }
      specialize (IH (i + 1) (allResults ++ rs) p page e).
      destruct (search_loop _ _ _ _ _ n (i + 1) (allResults ++ rs)) as [t r].
      simpl in *. intros [H | Hin] Hp Hf.
      * exfalso. eapply Hok; eauto.
      * destruct (IH Hin Hp Hf) as [Hs [before Hb]]. split; [exact Hs |].
        exists (CustomSearch (params_at apiKey cx_id jobTitle location i) :: before).
        rewrite Hb. reflexivity.
    + simpl. intros [H | []] Hp. inversion H. subst p. congruence.
Qed.

(** What the loop returns is what it was given followed by the formatted
    pages of its calls. *)
Lemma search_loop_gathered apiKey cx_id jobTitle location maxResults n :
  forall i allResults all,
    snd (search_loop apiKey cx_id jobTitle location maxResults n i allResults) = inr all ->
    all = allResults
          ++ gathered (fst (search_loop apiKey cx_id jobTitle location maxResults n i
                              allResults)).
Proof.
  induction n as [| n IH]; intros i allResults all.
  - simpl. intros H. inversion H. rewrite app_nil_r. reflexivity.
  - rewrite search_loop_step. cbv zeta.
    destruct (axios_get (params_at apiKey cx_id jobTitle location i))
      as [m | [[| item pg] |]] eqn:Ha.
    + simpl. discriminate.
    + simpl. unfold formatted_page. rewrite Ha. simpl. intros H. inversion H.
      rewrite app_nil_r. reflexivity.
    + destruct (snd (mapM format_result (item :: pg))) as [e' | rs] eqn:Hm.
      { simpl. discriminate. }
      assert (Hfp : formatted_page (params_at apiKey cx_id jobTitle location i) = rs).
      { unfold formatted_page. rewrite Ha, Hm. reflexivity. }
      destruct (_ >=? _).
      { cbn [fst snd gathered flat_map]. rewrite Hfp, app_nil_r.
        intros H. inversion H. reflexivity. }
      specialize (IH (i + 1) (allResults ++ rs) all).
      destruct (search_loop _ _ _ _ _ n (i + 1) (allResults ++ rs)) as [t r].
      cbn [fst snd gathered flat_map] in *. rewrite Hfp. intros H.
      rewrite (IH H). unfold gathered. rewrite app_assoc. reflexivity.
    + simpl. unfold formatted_page. rewrite Ha. simpl. intros H. inversion H.
      rewrite app_nil_r. reflexivity.
Qed.

Lemma format_result_listing (item r : jsval) :
  snd (format_result item) = inr r -> listing_result r.
Proof.
  unfold format_result, get_prop. destruct (nullish item); [simpl; discriminate |].
  rewrite !bind_ret_l.
  destruct (URL_hostname (read_prop item "link")) as [h |] eqn:Hh; simpl; [| discriminate].
  intros H. inversion H. unfold listing_result. eauto 10.
Qed.

Lemma format_result_unusable (item : jsval) :
  unusable_item item -> exists e, format_result item = throw e.
Proof.
  unfold format_result, get_prop, unusable_item.
  destruct (nullish item); [intros _; eexists; reflexivity |].
  intros [H | H]; [discriminate |]. rewrite !bind_ret_l, H. eexists. reflexivity.
Qed.

Lemma mapM_Forall {A B} (f : A -> M B) (P : B -> Prop) (l : list A) (ys : list B) :
  (forall x y, snd (f x) = inr y -> P y) ->
  snd (mapM f l) = inr ys -> Forall P ys.
Proof.
  intros Hf. revert ys. induction l as [| x l IH]; simpl; intros ys H.
  - inversion H. constructor.
  - unfold bind in H. destruct (f x) as [t [e | y]] eqn:Hx; simpl in H; [discriminate |].
    destruct (mapM f l) as [t' [e | ys']]; simpl in H; [discriminate |].
    inversion H. constructor.
    + apply (Hf x). rewrite Hx. reflexivity.
    + apply IH. reflexivity.
Qed.

Lemma mapM_throws {A B} (f : A -> M B) (l : list A) :
  Exists (fun x => exists e, f x = throw e) l ->
  (forall x, pure_step (f x)) ->
  exists e, mapM f l = throw e.
Proof.
  intros Hex Hp. induction l as [| x l IH]; [inversion Hex |].
  simpl. destruct (f x) as [t [e | y]] eqn:Hx.
  - pose proof (Hp x) as Ht. unfold pure_step in Ht. rewrite Hx in Ht. simpl in Ht.
    subst t. exists e. reflexivity.
  - pose proof (Hp x) as Ht. unfold pure_step in Ht. rewrite Hx in Ht. simpl in Ht.
    subst t.
    assert (Hrest : Exists (fun x => exists e, f x = throw e) l).
    { inversion Hex as [? ? [e He] | ? ? Hl]; subst; [| exact Hl].
      rewrite Hx in He. discriminate. }
    destruct (IH Hrest) as [e He]. exists e.
    unfold bind at 1. rewrite He. reflexivity.
Qed.

Lemma formatted_page_listings (p : SearchParams) : Forall listing_result (formatted_page p).
Proof.
  unfold formatted_page.
  destruct (axios_get p) as [m | [page |]]; try constructor.
  destruct (snd (mapM format_result page)) as [e | rs] eqn:Hm; [constructor |].
  eapply mapM_Forall; [| exact Hm]. intros x y. apply format_result_listing.
Qed.

Lemma gathered_listings (log : list call) : Forall listing_result (gathered log).
Proof.
  unfold gathered. induction log as [| c log IH]; simpl; [constructor |].
  apply Forall_app. split; [| exact IH].
  destruct c; try constructor. apply formatted_page_listings.
Qed.

Lemma firstn_Forall {A} (P : A -> Prop) (k : nat) (l : list A) :
  Forall P l -> Forall P (firstn k l).
Proof.
  intros H. revert k. induction H as [| x l Hx _ IH]; intros [| k]; simpl;
    constructor; auto.
Qed.

Lemma slice0_Forall {A} (P : A -> Prop) (l : list A) (e : Z) :
  Forall P l -> Forall P (slice0 l e).
Proof.
  intros H. unfold slice0. destruct (e <? 0); apply firstn_Forall; exact H.
Qed.

Lemma listing_not_nullish (r : jsval) : listing_result r -> nullish r = false.
Proof. intros (t & l & s & h & -> & _). reflexivity. Qed.

(** What the handler answers is the gathered results, cut at maxResults. *)
Lemma googleSearchHandler_gathered (env : environment) (b : search_body) (rs : list jsval) :
  sent (googleSearchHandler env b) = json (Results rs) ->
  rs = slice0 (gathered (calls (googleSearchHandler env b)))
         (default_maxResults (maxResults b)).
Proof.
  intros H.
  destruct (truthy_str (GOOGLE_API_KEY env)) eqn:Hk;
    [destruct (truthy_str (GOOGLE_CX env)) eqn:Hc |].
  - rewrite (googleSearchHandler_run env b Hk Hc) in *. unfold search_of in *.
    pose proof (search_loop_gathered (template (GOOGLE_API_KEY env))
                  (template (GOOGLE_CX env)) (jobTitle b) (location b)
                  (default_maxResults (maxResults b))
                  (Z.to_nat (ceil_div10 (default_maxResults (maxResults b)))) 0 []) as G.
    destruct (search_loop _ _ _ _ _ _ _ _) as [t [e | all]]; simpl in *; [discriminate |].
    inversion H. rewrite (G all eq_refl). reflexivity.
  - rewrite googleSearchHandler_no_credentials in H by (right; assumption). discriminate.
  - rewrite googleSearchHandler_no_credentials in H by (left; assumption). discriminate.
Qed.

Lemma googleSearchHandler_listings (env : environment) (b : search_body) (rs : list jsval) :
  sent (googleSearchHandler env b) = json (Results rs) -> Forall listing_result rs.
Proof.
  intros H. rewrite (googleSearchHandler_gathered env b rs H).
  apply slice0_Forall, gathered_listings.
Qed.

Lemma unusable_page_throws (page : list jsval) :
  Exists unusable_item page -> exists e, snd (mapM format_result page) = inl e.
Proof.
  intros H.
  destruct (mapM_throws format_result page) as [e He].
  - eapply Exists_impl; [| exact H]. intros item. apply format_result_unusable.
  - apply format_result_pure.
  - exists e. rewrite He. reflexivity.
Qed.

(** With every page holding ten items that can be formatted, the loop runs
    to its bound. *)
Lemma search_loop_full_pages apiKey cx_id jobTitle location maxResults :
  (forall p, exists page formatted,
      axios_get p = inr (Some page)
      /\ snd (mapM format_result page) = inr formatted
      /\ List.length page = 10%nat) ->
  forall n i allResults,
    Z.of_nat (List.length allResults) = 10 * i ->
    Z.of_nat (S n) = ceil_div10 maxResults - i ->
    exists all,
      snd (search_loop apiKey cx_id jobTitle location maxResults (S n) i allResults) = inr all
      /\ List.length (fst (search_loop apiKey cx_id jobTitle location maxResults (S n) i
                             allResults)) = S n
      /\ Z.of_nat (List.length all) = 10 * ceil_div10 maxResults.
Proof.
  intros Hfull. pose proof (ceil_div10_spec maxResults) as Hc.
  induction n as [| n IH]; intros i allResults Hlen Hn.
  - rewrite search_loop_step. cbv zeta.
    destruct (Hfull (params_at apiKey cx_id jobTitle location i))
      as (page & rs & Ha & Hm & Hl).
    rewrite Ha. destruct page as [| item pg]; [discriminate |]. rewrite Hm.
    pose proof (mapM_length _ _ _ Hm) as Hrs.
    replace (Z.of_nat (List.length (allResults ++ rs)) >=? maxResults) with true.
    + exists (allResults ++ rs). cbn [fst snd List.length].
      split; [reflexivity |]. split; [reflexivity |]. rewrite length_app. lia.
    + symmetry. rewrite Z.geb_leb. apply Z.leb_le. rewrite length_app. lia.
  - rewrite search_loop_step. cbv zeta.
    destruct (Hfull (params_at apiKey cx_id jobTitle location i))
      as (page & rs & Ha & Hm & Hl).
    rewrite Ha. destruct page as [| item pg]; [discriminate |]. rewrite Hm.
    pose proof (mapM_length _ _ _ Hm) as Hrs.
    replace (Z.of_nat (List.length (allResults ++ rs)) >=? maxResults) with false.
    + destruct (IH (i + 1) (allResults ++ rs)) as (all & Hs & Hf & Ha').
      * rewrite length_app. lia.
      * lia.
      * destruct (search_loop _ _ _ _ _ (S n) (i + 1) (allResults ++ rs)) as [t r].
        cbn [fst snd] in *. exists all.
        split; [exact Hs |]. split; [simpl; f_equal; exact Hf | exact Ha'].
    + symmetry. rewrite Z.geb_leb. apply Z.leb_gt. rewrite length_app. lia.
Qed.

(** *** Further properties of the search handler *)

(** X1.  The number of search calls of a request is at most
    ceil(maxResults / 10): ten times that number stays below
    max(maxResults, 0) + 10.  With maxResults absent it is at most 5. *)
Theorem search_calls_bounded (env : environment) (b : search_body) :
  let m := default_maxResults (maxResults b) in
  let k := List.length (calls (googleSearchHandler env b)) in
  (k <= Z.to_nat (ceil_div10 m))%nat
  /\ 10 * Z.of_nat k < Z.max m 0 + 10
  /\ (maxResults b = None -> (k <= 5)%nat).
Proof.
  cbv zeta.
  assert (H : (List.length (calls (googleSearchHandler env b))
               <= Z.to_nat (ceil_div10 (default_maxResults (maxResults b))))%nat).
  { destruct (googleSearchHandler_log env b) as [-> | ->]; [| simpl; lia].
    apply search_loop_calls_le. }
  pose proof (ceil_div10_spec (default_maxResults (maxResults b))) as Hc.
  split; [exact H |]. split; [lia |].
  intros Hn. rewrite Hn in *. simpl default_maxResults in *. lia.
Qed.

(** X2.  The call number k of a request (counted from 0) asks for 10 results
    from index 10 k + 1 on, with the key, the engine id and the query of the
    request: every call of a request carries the same query. *)
Theorem search_calls_paged (env : environment) (b : search_body) (k : nat) (c : call) :
  nth_error (calls (googleSearchHandler env b)) k = Some c ->
  c = CustomSearch
        (mkParams (template (GOOGLE_API_KEY env)) (template (GOOGLE_CX env))
           (search_query (jobTitle b) (location b)) 10 (10 * Z.of_nat k + 1)).
Proof.
  destruct (googleSearchHandler_log env b) as [-> | ->].
  - intros H. apply search_loop_nth in H. rewrite H. unfold params_at.
    do 2 f_equal. lia.
  - destruct k; discriminate.
Qed.

Lemma googleSearchHandler_rejected (env : environment) (b : search_body)
    (c : call) (message : string) :
  In c (calls (googleSearchHandler env b)) ->
  rejection c = Some message ->
  sent (googleSearchHandler env b) = status_json 500 (Error (Message (UpstreamError message)))
  /\ exists before, calls (googleSearchHandler env b) = before ++ [c].
Proof.
  destruct (truthy_str (GOOGLE_API_KEY env)) eqn:Hk;
    [destruct (truthy_str (GOOGLE_CX env)) eqn:Hc |].
  - rewrite (googleSearchHandler_run env b Hk Hc). unfold search_of.
    intros Hin Hr.
    pose proof (search_loop_rejected (template (GOOGLE_API_KEY env))
                  (template (GOOGLE_CX env)) (jobTitle b) (location b)
                  (default_maxResults (maxResults b))
                  (Z.to_nat (ceil_div10 (default_maxResults (maxResults b)))) 0 []
                  c message) as L.
    destruct (search_loop _ _ _ _ _ _ _ _) as [t [e | all]]; simpl in *;
      destruct (L Hin Hr) as [Hs Hb]; [| discriminate].
    inversion Hs. split; [reflexivity | exact Hb].
  - rewrite googleSearchHandler_no_credentials by (right; assumption).
    simpl. contradiction.
  - rewrite googleSearchHandler_no_credentials by (left; assumption).
    simpl. contradiction.
Qed.

(** X3.  When the search API rejects a call, the handler issues no further
    call and answers with status 500 and the message of the rejection; results
    of earlier pages are not returned. *)
Theorem search_rejection_ends (env : environment) (b : search_body)
    (c : call) (message : string) :
  In c (calls (googleSearchHandler env b)) ->
  rejection c = Some message ->
  sent (googleSearchHandler env b) = status_json 500 (Error (Message (UpstreamError message)))
  /\ exists before, calls (googleSearchHandler env b) = before ++ [c].
Proof. apply googleSearchHandler_rejected. Qed.

(** X4.  Every result the handler returns is an object with the properties
    title, link, snippet and source, in this order, whose source is the host
    name the URL constructor gives for its link. *)
Theorem search_results_are_listings (env : environment) (b : search_body)
    (rs : list jsval) :
  sent (googleSearchHandler env b) = json (Results rs) ->
  Forall listing_result rs.
Proof. apply googleSearchHandler_listings. Qed.

(** X5.  The results returned are the formatted pages of the calls issued, in
    the order of the calls and of the items, cut after maxResults: all of
    them when there are at most maxResults, the first maxResults otherwise. *)
Theorem search_results_in_order (env : environment) (b : search_body) (rs : list jsval) :
  sent (googleSearchHandler env b) = json (Results rs) ->
  let m := default_maxResults (maxResults b) in
  let g := gathered (calls (googleSearchHandler env b)) in
  (Z.of_nat (List.length g) <= m -> rs = g)
  /\ (0 <= m <= Z.of_nat (List.length g) ->
      rs = firstn (Z.to_nat m) g /\ Z.of_nat (List.length rs) = m).
Proof.
  intros H m g. pose proof (googleSearchHandler_gathered env b rs H) as E.
  fold m in E. fold g in E. split.
  - intros Hle. rewrite E. unfold slice0.
    destruct (m <? 0) eqn:Hm; [apply Z.ltb_lt in Hm; lia |].
    apply firstn_all2. lia.
  - intros [H0 Hle]. rewrite E. unfold slice0.
    destruct (m <? 0) eqn:Hm; [apply Z.ltb_lt in Hm; lia |].
    split; [reflexivity |]. rewrite length_firstn. lia.
Qed.

(** X6.  With both credentials set, maxResults at least 1 and a search API
    whose every page holds ten items that can be formatted, the handler
    issues exactly ceil(maxResults / 10) calls and returns exactly maxResults
    results. *)
Theorem search_full_pages (env : environment) (b : search_body) :
  truthy_str (GOOGLE_API_KEY env) = true ->
  truthy_str (GOOGLE_CX env) = true ->
  1 <= default_maxResults (maxResults b) ->
  (forall p, exists page formatted,
      axios_get p = inr (Some page)
      /\ snd (mapM format_result page) = inr formatted
      /\ List.length page = 10%nat) ->
  let m := default_maxResults (maxResults b) in
  let k := Z.of_nat (List.length (calls (googleSearchHandler env b))) in
  10 * (k - 1) < m <= 10 * k
  /\ exists rs, sent (googleSearchHandler env b) = json (Results rs)
               /\ Z.of_nat (List.length rs) = m.
Proof.
  intros Hk Hc Hm Hfull m k. subst k.
  rewrite (googleSearchHandler_run env b Hk Hc). unfold search_of. fold m.
  pose proof (ceil_div10_spec m) as Hs.
  destruct (Z.to_nat (ceil_div10 m)) as [| n] eqn:Hn; [lia |].
  destruct (search_loop_full_pages (template (GOOGLE_API_KEY env))
              (template (GOOGLE_CX env)) (jobTitle b) (location b) m Hfull n 0 [])
    as (all & Hsnd & Hfst & Hall); [reflexivity | lia |].
  destruct (search_loop _ _ _ _ m (S n) 0 []) as [t r]. cbn [fst snd] in *. subst r.
  cbn [calls sent]. rewrite Hfst. split; [lia |].
  eexists. split; [reflexivity |].
  unfold slice0. destruct (m <? 0) eqn:Hneg; [apply Z.ltb_lt in Hneg; lia |].
  rewrite length_firstn. lia.
Qed.

(** X7.  When a page answered to a call holds an item that is undefined or
    null, or whose link the URL constructor rejects, the handler issues no
    further call and answers with status 500: no result is returned, not even
    those of earlier pages. *)
Theorem search_unusable_item (env : environment) (b : search_body)
    (p : SearchParams) (page : list jsval) :
  In (CustomSearch p) (calls (googleSearchHandler env b)) ->
  axios_get p = inr (Some page) ->
  Exists unusable_item page ->
  (exists e, sent (googleSearchHandler env b) = status_json 500 (Error (Message e)))
  /\ exists before, calls (googleSearchHandler env b) = before ++ [CustomSearch p].
Proof.
  intros Hin Ha Hex. destruct (unusable_page_throws page Hex) as [e He].
  destruct (truthy_str (GOOGLE_API_KEY env)) eqn:Hk;
    [destruct (truthy_str (GOOGLE_CX env)) eqn:Hc |].
  - rewrite (googleSearchHandler_run env b Hk Hc) in *. unfold search_of in *.
    pose proof (search_loop_unformatted (template (GOOGLE_API_KEY env))
                  (template (GOOGLE_CX env)) (jobTitle b) (location b)
                  (default_maxResults (maxResults b))
                  (Z.to_nat (ceil_div10 (default_maxResults (maxResults b)))) 0 []
                  p page e) as L.
    destruct (search_loop _ _ _ _ _ _ _ _) as [t [e' | all]]; simpl in *;
      destruct (L Hin Ha He) as [Hs Hb]; [| discriminate].
    split; [eauto | exact Hb].
  - rewrite googleSearchHandler_no_credentials in Hin by (right; assumption).
    simpl in Hin. contradiction.
  - rewrite googleSearchHandler_no_credentials in Hin by (left; assumption).
    simpl in Hin. contradiction.
Qed.

(** X8.  With both credentials set and maxResults at least 1, a first page
    that is absent or empty makes the handler stop after that one call and
    answer with status 200 and the empty result list. *)
Theorem search_nothing_found (env : environment) (b : search_body) :
  truthy_str (GOOGLE_API_KEY env) = true ->
  truthy_str (GOOGLE_CX env) = true ->
  1 <= default_maxResults (maxResults b) ->
  let first := params_at (template (GOOGLE_API_KEY env)) (template (GOOGLE_CX env))
                 (jobTitle b) (location b) 0 in
  axios_get first = inr None \/ axios_get first = inr (Some []) ->
  googleSearchHandler env b = Run [CustomSearch first] (json (Results [])).
Proof.
  intros Hk Hc Hm first Ha.
  rewrite (googleSearchHandler_run env b Hk Hc). unfold search_of.
  pose proof (ceil_div10_spec (default_maxResults (maxResults b))) as Hs.
  destruct (Z.to_nat (ceil_div10 (default_maxResults (maxResults b)))) as [| n] eqn:Hn;
    [lia |].
  rewrite search_loop_step. cbv zeta. fold first.
  destruct Ha as [-> | ->]; rewrite slice0_nil; reflexivity.
Qed.

(** *** Further properties of the export handlers *)

Lemma sheet_row_throws (item : jsval) :
  nullish item = true -> sheet_row item = throw (NullishAccess item "title").
Proof. intros H. unfold sheet_row, get_prop. rewrite H. reflexivity. Qed.

Lemma mapM_sheet_row_throws (items : list jsval) :
  Exists (fun x => nullish x = true) items ->
  exists v, mapM sheet_row items = throw (NullishAccess v "title").
Proof.
  induction items as [| x items IH]; intros H.
  - inversion H.
  - destruct (nullish x) eqn:Hx.
    + exists x. simpl. rewrite (sheet_row_throws x Hx). reflexivity.
    + assert (Hrest : Exists (fun x => nullish x = true) items).
      { inversion H; subst; [congruence | assumption]. }
      destruct (IH Hrest) as [v Hv]. exists v.
      simpl. rewrite (sheet_row_cells x Hx), Hv. reflexivity.
Qed.

Lemma excel_row_pure (item : jsval) : pure_step (excel_row item).
Proof.
  unfold excel_row. repeat (apply bind_pure; [apply get_prop_pure | intros ?]).
  reflexivity.
Qed.

Lemma js_or_filled (v : jsval) : filled_cell (js_or v (VStr "")).
Proof. unfold filled_cell, js_or. destruct (truthy v) eqn:H; auto. Qed.

Lemma excel_row_filled (item : jsval) (row : list jsval) :
  snd (excel_row item) = inr row ->
  List.length row = 4%nat /\ Forall filled_cell row.
Proof.
  unfold excel_row, get_prop. destruct (nullish item); [simpl; discriminate |].
  rewrite !bind_ret_l. simpl. intros H. inversion H.
  split; [reflexivity |].
  repeat (constructor; [apply js_or_filled |]). constructor.
Qed.

(** The handler without usable credentials issues no call. *)
Lemma createSpreadsheetHandler_unusable (env : environment) (b : spreadsheet_body) :
  (forall v, JSON_parse (template (GOOGLE_SHEETS_CREDENTIALS env)) = Some v ->
             truthy v = false) ->
  calls (createSpreadsheetHandler env b) = []
  /\ exists e, sent (createSpreadsheetHandler env b) = status_json 500 (Error e).
Proof.
  intros H. unfold createSpreadsheetHandler, parse_credentials.
  destruct (JSON_parse (template (GOOGLE_SHEETS_CREDENTIALS env))) as [v |] eqn:Hp.
  - rewrite bind_ret_l, (H v eq_refl). simpl. eauto.
  - simpl. eauto.
Qed.

(** Usable credentials or not. *)
Lemma credentials_cases (env : environment) :
  (exists v, JSON_parse (template (GOOGLE_SHEETS_CREDENTIALS env)) = Some v
             /\ truthy v = true)
  \/ (forall v, JSON_parse (template (GOOGLE_SHEETS_CREDENTIALS env)) = Some v ->
                truthy v = false).
Proof.
  destruct (JSON_parse (template (GOOGLE_SHEETS_CREDENTIALS env))) as [v |].
  - destruct (truthy v) eqn:Ht; [left; eauto |].
    right. intros v' H. inversion H. subst. exact Ht.
  - right. discriminate.
Qed.

Lemma createSpreadsheetHandler_sent (env : environment) (b : spreadsheet_body) :
  (exists id url n, sent (createSpreadsheetHandler env b) = json (Spreadsheet id url n))
  \/ (exists e, sent (createSpreadsheetHandler env b) = status_json 500 (Error e)).
Proof.
  destruct (credentials_cases env) as [(v & Hp & Ht) | Hno].
  - rewrite (createSpreadsheetHandler_cases env b v Hp Ht). cbv zeta.
    destruct (spreadsheets_create _ _) as [m | id]; [right; simpl; eauto |].
    destruct (snd (mapM sheet_row (data b))) as [e | rows]; [right; simpl; eauto |].
    destruct (values_update _ _) as [m | u]; [right; simpl; eauto |].
    destruct (permissions_create _ _) as [m | u']; [right | left]; simpl; eauto.
  - right. apply createSpreadsheetHandler_unusable. exact Hno.
Qed.

Lemma exportToExcelHandler_sent (b : excel_body) :
  (exists headers buffer, sent (exportToExcelHandler b) = send headers buffer)
  \/ sent (exportToExcelHandler b) = status_json 400 (Error (Text invalid_data_format))
  \/ (exists e, sent (exportToExcelHandler b) = status_json 500 (Error (Message e))).
Proof.
  unfold exportToExcelHandler. cbv zeta.
  destruct (negb _ || negb _ || _); [right; left; reflexivity |].
  unfold library, library_call, setHeader, bind.
  destruct (mapM excel_row (array_elems (excel_data b))) as [t [e | rows]]; simpl.
  - right. right. eauto.
  - destruct (XLSX_write (header_row :: rows)) as [message | excelBuffer]; simpl.
    + right. right. eauto.
    + destruct (header_accepted "Content-Type" _); simpl; [| right; right; eauto].
      destruct (header_accepted "Content-Disposition" _); simpl; [| right; right; eauto].
      destruct (header_accepted "Content-Length" _); simpl; [| right; right; eauto].
      left. eauto.
Qed.

(** X9.  The spreadsheet handler stops at the first call the service
    rejects: a rejected call is the last call of the log, so a rejected write
    or permission leaves the created document as it is. *)
Theorem spreadsheet_rejection_ends (env : environment) (b : spreadsheet_body)
    (c : call) (message : string) :
  In c (calls (createSpreadsheetHandler env b)) ->
  rejection c = Some message ->
  exists before, calls (createSpreadsheetHandler env b) = before ++ [c].
Proof.
  destruct (credentials_cases env) as [(v & Hp & Ht) | Hno].
  - rewrite (createSpreadsheetHandler_cases env b v Hp Ht). cbv zeta. clear Hp Ht.
    destruct (spreadsheets_create _ _) as [m | id] eqn:Hcreate.
    { simpl. intros [<- | []] _. exists []. reflexivity. }
    destruct (snd (mapM sheet_row (data b))) as [e | rows].
    { simpl. intros [<- | []] Hr. simpl in Hr. rewrite Hcreate in Hr. discriminate. }
    destruct (values_update _ _) as [m | u] eqn:Hupdate.
    { simpl. intros [<- | [<- | []]] Hr.
      - simpl in Hr. rewrite Hcreate in Hr. discriminate.
      - eexists [_]. reflexivity. }
    destruct (permissions_create _ _) as [m | u'] eqn:Hperm;
      simpl; intros [<- | [<- | [<- | []]]] Hr;
      try (simpl in Hr; rewrite ?Hcreate, ?Hupdate, ?Hperm in Hr; discriminate).
    eexists [_; _]. reflexivity.
  - destruct (createSpreadsheetHandler_unusable env b Hno) as [-> _].
    simpl. contradiction.
Qed.

(** X10.  A write is issued only after a creation that was answered, on the
    document that creation returned, and its first row is the header row; a
    permission is issued only after a write that was answered, on the same
    document, and is the third and last call. *)
Theorem spreadsheet_calls_target_created (env : environment) (b : spreadsheet_body)
    (auth : JWT) :
  let log := calls (createSpreadsheetHandler env b) in
  (forall u, In (ValuesUpdate auth u) log ->
     exists create rest,
       log = SpreadsheetsCreate auth create :: ValuesUpdate auth u :: rest
       /\ spreadsheets_create auth create = inr (upd_spreadsheetId u)
       /\ hd_error (values u) = Some header_row
       /\ List.length (values u) = S (List.length (data b)))
  /\ (forall pr, In (PermissionsCreate auth pr) log ->
        exists create u,
          log = [SpreadsheetsCreate auth create; ValuesUpdate auth u;
                 PermissionsCreate auth pr]
          /\ spreadsheets_create auth create = inr (fileId pr)
          /\ upd_spreadsheetId u = fileId pr
          /\ values_update auth u = inr tt
          /\ role pr = "writer" /\ type_ pr = "anyone").
Proof.
  cbv zeta.
  destruct (credentials_cases env) as [(v & Hp & Ht) | Hno].
  - rewrite (createSpreadsheetHandler_cases env b v Hp Ht). cbv zeta. clear Hp Ht.
    destruct (spreadsheets_create _ _) as [m | id] eqn:Hcreate.
    { split; intros x [H | []]; discriminate. }
    destruct (snd (mapM sheet_row (data b))) as [e | rows] eqn:Hrows.
    { split; intros x [H | []]; discriminate. }
    pose proof (mapM_length _ _ _ Hrows) as Hlen.
    destruct (values_update _ _) as [m | []] eqn:Hupdate.
    { split.
      - intros u [H | [H | []]]; [discriminate |]. inversion H. subst auth u.
        do 2 eexists. split; [reflexivity |]. cbn [upd_spreadsheetId values hd_error].
        split; [exact Hcreate |]. split; [reflexivity |]. simpl. f_equal. exact Hlen.
      - intros pr [H | [H | []]]; discriminate. }
    destruct (permissions_create _ _) as [m | u']; cbn [calls].
    + split.
      * intros u [H | [H | [H | []]]]; try discriminate. inversion H. subst auth u.
        do 2 eexists. split; [reflexivity |]. cbn [upd_spreadsheetId values hd_error].
        split; [exact Hcreate |]. split; [reflexivity |]. simpl. f_equal. exact Hlen.
      * intros pr [H | [H | [H | []]]]; try discriminate. inversion H. subst auth pr.
        do 2 eexists. split; [reflexivity |]. cbn [upd_spreadsheetId fileId role type_].
        repeat split; assumption.
    + split.
      * intros u [H | [H | [H | []]]]; try discriminate. inversion H. subst auth u.
        do 2 eexists. split; [reflexivity |]. cbn [upd_spreadsheetId values hd_error].
        split; [exact Hcreate |]. split; [reflexivity |]. simpl. f_equal. exact Hlen.
      * intros pr [H | [H | [H | []]]]; try discriminate. inversion H. subst auth pr.
        do 2 eexists. split; [reflexivity |]. cbn [upd_spreadsheetId fileId role type_].
        repeat split; assumption.
  - destruct (createSpreadsheetHandler_unusable env b Hno) as [-> _].
    split; intros x [].
Qed.

(** X11.  With usable credentials and the creation answered, a result list
    that holds undefined or null makes the handler answer with status 500
    after the creation and before any write: the document exists and stays
    empty. *)
Theorem spreadsheet_null_element (env : environment) (b : spreadsheet_body)
    (credentials : jsval) (spreadsheetId : string) :
  JSON_parse (template (GOOGLE_SHEETS_CREDENTIALS env)) = Some credentials ->
  truthy credentials = true ->
  let auth := jwt_of credentials in
  let create := mkCreate (title b) "Job Listings" (Z.of_nat (List.length (data b)) + 1) 4 in
  spreadsheets_create auth create = inr spreadsheetId ->
  Exists (fun item => nullish item = true) (data b) ->
  exists v,
    createSpreadsheetHandler env b =
    Run [SpreadsheetsCreate auth create]
        (status_json 500 (Error (Message (NullishAccess v "title")))).
Proof.
  intros Hp Ht auth create Hcreate Hex.
  destruct (mapM_sheet_row_throws (data b) Hex) as [v Hv]. exists v.
  rewrite (createSpreadsheetHandler_cases env b credentials Hp Ht). cbv zeta.
  fold auth. fold create. rewrite Hcreate, Hv. reflexivity.
Qed.

(** The log of the file export: nothing, the new workbook alone, or the new
    workbook and the one encoding of the rows made of the data. *)
Lemma exportToExcelHandler_log (b : excel_body) :
  calls (exportToExcelHandler b) = []
  \/ calls (exportToExcelHandler b) = [BookNew]
  \/ exists rws,
       snd (mapM excel_row (array_elems (excel_data b))) = inr rws
       /\ calls (exportToExcelHandler b) = [BookNew; XlsxWrite (header_row :: rws)].
Proof.
  unfold exportToExcelHandler. cbv zeta.
  destruct (negb _ || negb _ || _); [left; reflexivity |]. right.
  unfold library, library_call, setHeader, bind.
  pose proof (mapM_pure excel_row (array_elems (excel_data b)) excel_row_pure) as Hpure.
  unfold pure_step in Hpure.
  destruct (mapM excel_row (array_elems (excel_data b))) as [t [e | rws]];
    simpl in Hpure; subst t; simpl.
  - left. reflexivity.
  - right. exists rws. split; [reflexivity |].
    destruct (XLSX_write (header_row :: rws)) as [message | excelBuffer]; simpl;
      [reflexivity |].
    destruct (header_accepted "Content-Type" _); simpl; [| reflexivity].
    destruct (header_accepted "Content-Disposition" _); simpl; [| reflexivity].
    destruct (header_accepted "Content-Length" _); reflexivity.
Qed.

(** X12.  Whatever the body, a worksheet the file export hands to the
    encoder is the header row followed by one row per element of the data;
    each of these rows has four cells, and each cell is a truthy field or the
    empty string, never undefined or null. *)
Theorem excel_worksheet_shape (b : excel_body) (rows : list (list jsval)) :
  In (XlsxWrite rows) (calls (exportToExcelHandler b)) ->
  exists data_rows,
    rows = header_row :: data_rows
    /\ List.length data_rows = List.length (array_elems (excel_data b))
    /\ Forall (fun row => List.length row = 4%nat /\ Forall filled_cell row) data_rows.
Proof.
  destruct (exportToExcelHandler_log b) as [-> | [-> | (rws & Hs & ->)]].
  - simpl. contradiction.
  - intros [H | []]. discriminate.
  - intros [H | [H | []]]; [discriminate |]. inversion H. subst rows.
    exists rws. split; [reflexivity |].
    split; [exact (mapM_length _ _ _ Hs) |].
    eapply mapM_Forall; [| exact Hs]. intros x y. apply excel_row_filled.
Qed.

(** *** Further properties of the composite routes *)

Lemma post_search_to_excel_valid (env : environment) (b : search_to_excel_body) :
  truthy_str (s2e_jobTitle b) = true ->
  post_search_to_excel env b =
  match sent (s2e_search env b) with
  | json (Results results) =>
      let excel := exportToExcelHandler
                     (mkExcelBody (VArr results) (Some (s2e_excelFilename b))) in
      Run (calls (s2e_search env b) ++ calls excel) (sent excel)
  | other => Run (calls (s2e_search env b)) other
  end.
Proof.
  intros H. unfold post_search_to_excel, s2e_search, s2e_excelFilename.
  cbv zeta. rewrite H. reflexivity.
Qed.

Lemma post_search_to_spreadsheet_valid (env : environment)
    (b : search_to_spreadsheet_body) :
  truthy_str (s2s_jobTitle b) = true ->
  post_search_to_spreadsheet env b =
  match sent (s2s_search env b) with
  | json (Results results) =>
      let sheet := createSpreadsheetHandler env
                     (mkSheetBody (VStr (s2s_title b)) results) in
      match sent sheet with
      | json (Spreadsheet spreadsheetId spreadsheetUrl _) =>
          Run (calls (s2s_search env b) ++ calls sheet)
              (json (Summary "Search and spreadsheet creation successful"
                       (template (s2s_jobTitle b))
                       (if truthy_str (s2s_location b) then template (s2s_location b)
                        else "Any location")
                       (List.length results) spreadsheetId spreadsheetUrl))
      | other => Run (calls (s2s_search env b) ++ calls sheet) other
      end
  | other => Run (calls (s2s_search env b)) other
  end.
Proof.
  intros H. unfold post_search_to_spreadsheet, s2s_search, s2s_title.
  cbv zeta. rewrite H. reflexivity.
Qed.

Lemma listings_not_nullish (rs : list jsval) :
  Forall listing_result rs -> Forall (fun x => nullish x = false) rs.
Proof. apply Forall_impl. exact listing_not_nullish. Qed.

(** X13.  On /api/search-to-excel a search that returns no result makes the
    route answer with status 400 and the invalid-data message: no workbook is
    made and no file is sent. *)
Theorem search_to_excel_no_results (env : environment) (b : search_to_excel_body) :
  truthy_str (s2e_jobTitle b) = true ->
  sent (s2e_search env b) = json (Results []) ->
  post_search_to_excel env b =
  Run (calls (s2e_search env b)) (status_json 400 (Error (Text invalid_data_format))).
Proof.
  intros Hj Hs. rewrite (post_search_to_excel_valid env b Hj), Hs. cbv zeta.
  rewrite exportToExcelHandler_rejects by (right; right; reflexivity).
  simpl. rewrite app_nil_r. reflexivity.
Qed.

(** X14.  On both composite routes, with a jobTitle given, a search call that
    the search API rejects is the last call of the route: the export step is
    not started, and the route answers with status 500 and the message of the
    rejection. *)
Theorem composite_search_failure (env : environment)
    (b1 : search_to_spreadsheet_body) (b2 : search_to_excel_body)
    (c : call) (message : string) :
  rejection c = Some message ->
  (truthy_str (s2s_jobTitle b1) = true ->
   In c (calls (s2s_search env b1)) ->
   sent (post_search_to_spreadsheet env b1)
     = status_json 500 (Error (Message (UpstreamError message)))
   /\ exists before, calls (post_search_to_spreadsheet env b1) = before ++ [c])
  /\ (truthy_str (s2e_jobTitle b2) = true ->
      In c (calls (s2e_search env b2)) ->
      sent (post_search_to_excel env b2)
        = status_json 500 (Error (Message (UpstreamError message)))
      /\ exists before, calls (post_search_to_excel env b2) = before ++ [c]).
Proof.
  intros Hr. split; intros Hj Hin.
  - destruct (googleSearchHandler_rejected env _ c message Hin Hr) as [Hs Hb].
    fold (s2s_search env b1) in Hs, Hb.
    rewrite (post_search_to_spreadsheet_valid env b1 Hj), Hs.
    split; [reflexivity | exact Hb].
  - destruct (googleSearchHandler_rejected env _ c message Hin Hr) as [Hs Hb].
    fold (s2e_search env b2) in Hs, Hb.
    rewrite (post_search_to_excel_valid env b2 Hj), Hs.
    split; [reflexivity | exact Hb].
Qed.

(** X15.  On /api/search-to-excel, with a jobTitle given and a search that
    returns at least one result, the export step always reaches the encoder
    (reading the results of the search never throws): the log is the log of
    the search followed by the new workbook and the encoding of the header row
    and one row per result.  The route sends the bytes, under the file name
    of the body or, when that is absent or empty, the default built from the
    job title and the location, whenever the encoder returns them and the
    response headers are taken; it answers with status 500 and the message of
    the encoder when the encoder throws. *)
Theorem search_to_excel_sends (env : environment) (b : search_to_excel_body)
    (r : jsval) (rs : list jsval) :
  truthy_str (s2e_jobTitle b) = true ->
  sent (s2e_search env b) = json (Results (r :: rs)) ->
  let rows := header_row :: map excel_cells (r :: rs) in
  let headers := excel_headers (s2e_excelFilename b) in
  calls (post_search_to_excel env b)
    = calls (s2e_search env b) ++ [BookNew; XlsxWrite rows]
  /\ (forall excelBuffer,
        XLSX_write rows = inr excelBuffer ->
        (forall name value, In (name, value) (headers excelBuffer) ->
                            header_accepted name value = true) ->
        sent (post_search_to_excel env b) = send (headers excelBuffer) excelBuffer)
  /\ (forall message,
        XLSX_write rows = inl message ->
        sent (post_search_to_excel env b)
        = status_json 500 (Error (Message (LibraryError message)))).
Proof.
  intros Hj Hs rows headers. rewrite (post_search_to_excel_valid env b Hj), Hs. cbv zeta.
  assert (Hitems : Forall (fun x => nullish x = false) (r :: rs)).
  { apply listings_not_nullish.
    exact (googleSearchHandler_listings env _ (r :: rs) Hs). }
  rewrite (exportToExcelHandler_encodes
             (mkExcelBody (VArr (r :: rs)) (Some (s2e_excelFilename b))) r rs
             eq_refl Hitems).
  cbv zeta. cbn [calls sent filename default_filename_xlsx]. fold rows.
  split; [reflexivity |]. split.
  - intros excelBuffer -> Hall. subst headers. unfold excel_answer.
    rewrite (rejected_header_none _ Hall). reflexivity.
  - intros message ->. reflexivity.
Qed.

(** X16.  On each composite route a jobTitle that is absent or the empty
    string is answered with the message that jobTitle is required, and a
    jobTitle that is a non-empty string never is, whatever the search and the
    export then answer. *)
Theorem jobTitle_required_message (env : environment)
    (b1 : search_to_spreadsheet_body) (b2 : search_to_excel_body) :
  (truthy_str (s2s_jobTitle b1) = false ->
   sent (post_search_to_spreadsheet env b1) = status_json 400 (Error (Text missing_jobTitle)))
  /\ (truthy_str (s2s_jobTitle b1) = true ->
      sent (post_search_to_spreadsheet env b1)
      <> status_json 400 (Error (Text missing_jobTitle)))
  /\ (truthy_str (s2e_jobTitle b2) = false ->
      sent (post_search_to_excel env b2) = status_json 400 (Error (Text missing_jobTitle)))
  /\ (truthy_str (s2e_jobTitle b2) = true ->
      sent (post_search_to_excel env b2)
      <> status_json 400 (Error (Text missing_jobTitle))).
Proof.
  split; [| split; [| split]].
  - intros Hj. unfold post_search_to_spreadsheet. cbv zeta. rewrite Hj. reflexivity.
  - intros Hj. rewrite (post_search_to_spreadsheet_valid env b1 Hj).
    destruct (googleSearchHandler_sent env
                (mkSearch (s2s_jobTitle b1) (s2s_location b1)
                   (Some (default_maxResults (s2s_maxResults b1)))))
      as [[rs Hs] | [e Hs]]; fold (s2s_search env b1) in Hs; rewrite Hs.
    + cbv zeta.
      destruct (createSpreadsheetHandler_sent env (mkSheetBody (VStr (s2s_title b1)) rs))
        as [(id & url & n & ->) | [e ->]]; simpl; discriminate.
    + simpl. discriminate.
  - intros Hj. unfold post_search_to_excel. cbv zeta. rewrite Hj. reflexivity.
  - intros Hj. rewrite (post_search_to_excel_valid env b2 Hj).
    destruct (googleSearchHandler_sent env
                (mkSearch (s2e_jobTitle b2) (s2e_location b2)
                   (Some (default_maxResults (s2e_maxResults b2)))))
      as [[rs Hs] | [e Hs]]; fold (s2e_search env b2) in Hs; rewrite Hs.
    + cbv zeta.
      destruct (exportToExcelHandler_sent
                  (mkExcelBody (VArr rs) (Some (s2e_excelFilename b2))))
        as [(h & buf & ->) | [-> | [e ->]]]; simpl; discriminate.
    + simpl. discriminate.
Qed.

(** X17.  The status of an answer: the search handler and the spreadsheet
    handler answer with 200 or 500 only, the file export and the two
    composite routes with 200, 400 or 500 only. *)
Theorem answer_statuses (env : environment) (b : search_body) (sb : spreadsheet_body)
    (xb : excel_body) (b1 : search_to_spreadsheet_body) (b2 : search_to_excel_body) :
  (let s := http_status (sent (googleSearchHandler env b)) in s = 200 \/ s = 500)
  /\ (let s := http_status (sent (createSpreadsheetHandler env sb)) in s = 200 \/ s = 500)
  /\ (let s := http_status (sent (exportToExcelHandler xb)) in
      s = 200 \/ s = 400 \/ s = 500)
  /\ (let s := http_status (sent (post_search_to_spreadsheet env b1)) in
      s = 200 \/ s = 400 \/ s = 500)
  /\ (let s := http_status (sent (post_search_to_excel env b2)) in
      s = 200 \/ s = 400 \/ s = 500).
Proof.
  cbv zeta. split; [| split; [| split; [| split]]].
  - destruct (googleSearchHandler_sent env b) as [[rs ->] | [e ->]]; simpl; auto.
  - destruct (createSpreadsheetHandler_sent env sb) as [(id & url & n & ->) | [e ->]];
      simpl; auto.
  - destruct (exportToExcelHandler_sent xb) as [(h & buf & ->) | [-> | [e ->]]];
      simpl; auto.
  - destruct (truthy_str (s2s_jobTitle b1)) eqn:Hj.
    + rewrite (post_search_to_spreadsheet_valid env b1 Hj).
      destruct (googleSearchHandler_sent env
                  (mkSearch (s2s_jobTitle b1) (s2s_location b1)
                     (Some (default_maxResults (s2s_maxResults b1)))))
        as [[rs Hs] | [e Hs]]; fold (s2s_search env b1) in Hs; rewrite Hs.
      * cbv zeta.
        destruct (createSpreadsheetHandler_sent env (mkSheetBody (VStr (s2s_title b1)) rs))
          as [(id & url & n & ->) | [e ->]]; simpl; auto.
      * simpl. auto.
    + unfold post_search_to_spreadsheet. cbv zeta. rewrite Hj. simpl. auto.
  - destruct (truthy_str (s2e_jobTitle b2)) eqn:Hj.
    + rewrite (post_search_to_excel_valid env b2 Hj).
      destruct (googleSearchHandler_sent env
                  (mkSearch (s2e_jobTitle b2) (s2e_location b2)
                     (Some (default_maxResults (s2e_maxResults b2)))))
        as [[rs Hs] | [e Hs]]; fold (s2e_search env b2) in Hs; rewrite Hs.
      * cbv zeta.
        destruct (exportToExcelHandler_sent
                    (mkExcelBody (VArr rs) (Some (s2e_excelFilename b2))))
          as [(h & buf & ->) | [-> | [e ->]]]; simpl; auto.
      * simpl. auto.
    + unfold post_search_to_excel. cbv zeta. rewrite Hj. simpl. auto.
Qed.

(** X18.  On /api/search-to-spreadsheet, with a search that returns a result
    list (the empty one included), usable credentials and the three calls
    answered: the route creates a document sized to the results, writes the
    header row and one row of the four fields per result, shares it, and
    answers with a summary whose totalResults is the number of results
    written.  The title is the spreadsheetTitle of the body or, when that is
    absent or empty, the default built from job title, location and date. *)
Theorem search_to_spreadsheet_summary (env : environment)
    (b : search_to_spreadsheet_body) (rs : list jsval)
    (credentials : jsval) (spreadsheetId : string) :
  truthy_str (s2s_jobTitle b) = true ->
  sent (s2s_search env b) = json (Results rs) ->
  JSON_parse (template (GOOGLE_SHEETS_CREDENTIALS env)) = Some credentials ->
  truthy credentials = true ->
  let auth := jwt_of credentials in
  let create := mkCreate (VStr (s2s_title b)) "Job Listings"
                  (Z.of_nat (List.length rs) + 1) 4 in
  let update := mkUpdate spreadsheetId "Job Listings!A1" "RAW"
                  (header_row :: map sheet_cells rs) in
  let permission := mkPermission spreadsheetId "writer" "anyone" in
  spreadsheets_create auth create = inr spreadsheetId ->
  values_update auth update = inr tt ->
  permissions_create auth permission = inr tt ->
  post_search_to_spreadsheet env b =
  Run (calls (s2s_search env b)
       ++ [SpreadsheetsCreate auth create; ValuesUpdate auth update;
           PermissionsCreate auth permission])
      (json (Summary "Search and spreadsheet creation successful"
               (template (s2s_jobTitle b))
               (if truthy_str (s2s_location b) then template (s2s_location b)
                else "Any location")
               (List.length rs) spreadsheetId (spreadsheet_url spreadsheetId))).
Proof.
  intros Hj Hs Hp Ht auth create update permission Hcreate Hupdate Hperm.
  rewrite (post_search_to_spreadsheet_valid env b Hj), Hs. cbv zeta.
  rewrite (createSpreadsheetHandler_cases env _ credentials Hp Ht). cbv zeta.
  cbn [title data]. fold auth. fold create. rewrite Hcreate.
  assert (Hrows : mapM sheet_row rs = ret (map sheet_cells rs)).
  { apply mapM_ret.
    eapply Forall_impl; [| exact (googleSearchHandler_listings env _ rs Hs)].
    intros x Hx. apply sheet_row_cells, listing_not_nullish. exact Hx. }
  rewrite Hrows. cbn [snd ret]. fold update. rewrite Hupdate.
  fold permission. rewrite Hperm. reflexivity.
Qed.

End Handlers.

(** ** The handlers run on the sample worlds *)

Example search_to_spreadsheet_run :
  post_search_to_spreadsheet Sample.hostname Sample.parse Sample.five_in_all
    Sample.create_ok Sample.update_ok Sample.permission_ok Sample.today Sample.env
    (mkS2S (Some "Engineer") (Some "Berlin") (Some 3) None)
  = let auth := jwt_of Sample.credentials in
    let rows := header_row :: map sheet_cells [Sample.result; Sample.result; Sample.result] in
    Run [CustomSearch (params_at "api-key" "engine-id" (Some "Engineer") (Some "Berlin") 0);
         SpreadsheetsCreate auth
           (mkCreate (VStr "Engineer Jobs in Berlin - 11/2/2026") "Job Listings" 4 4);
         ValuesUpdate auth (mkUpdate "doc-1" "Job Listings!A1" "RAW" rows);
         PermissionsCreate auth (mkPermission "doc-1" "writer" "anyone")]
        (json (Summary "Search and spreadsheet creation successful" "Engineer" "Berlin" 3
                 "doc-1" "https://docs.google.com/spreadsheets/d/doc-1/edit?usp=sharing")).
Proof. vm_compute. reflexivity. Qed.

Example search_to_excel_run :
  post_search_to_excel Sample.hostname Sample.encode Sample.accept_header Sample.five_in_all
    Sample.underscore_blanks Sample.env
    (mkS2E (Some "Senior  Engineer") (Some "New York") (Some 3) None)
  = let rows := header_row :: map excel_cells [Sample.result; Sample.result; Sample.result] in
    Run [CustomSearch (params_at "api-key" "engine-id" (Some "Senior  Engineer")
                         (Some "New York") 0);
         BookNew; XlsxWrite rows]
        (send (excel_headers "Senior_Engineer_New_York_jobs.xlsx" (Sample.encoded rows))
              (Sample.encoded rows)).
Proof. vm_compute. reflexivity. Qed.

Example default_maxResults_run :
  map (fun c => match c with CustomSearch p => start p | _ => 0 end)
    (calls (googleSearchHandler Sample.hostname Sample.same_page Sample.env
              (mkSearch (Some "Engineer") None None)))
  = [1; 11; 21; 31; 41].
Proof. vm_compute. reflexivity. Qed.

Example unset_credentials_run :
  createSpreadsheetHandler Sample.parse Sample.create_ok Sample.update_ok
    Sample.permission_ok Sample.env_no_credentials (mkSheetBody (VStr "T") [Sample.result])
  = Run [] (status_json 500 (Error (Message (SyntaxError "undefined")))).
Proof.
  apply createSpreadsheetHandler_unset; reflexivity.
Qed.

(** ** Instances and counterexamples of the claims *)

(** C1 at maxResults 7 (one call), at maxResults 20 with a first page of
    five items (two calls), and at the default maxResults with pages of five
    items: the third call is followed by a fourth. *)
Lemma search_call_count_witness :
  calls (googleSearchHandler Sample.hostname Sample.same_page Sample.env
           (mkSearch (Some "Engineer") None (Some 7)))
    = [CustomSearch (params_at "api-key" "engine-id" (Some "Engineer") None 0)]
  /\ List.length (calls (googleSearchHandler Sample.hostname Sample.five_in_all Sample.env
                           (mkSearch (Some "Engineer") None (Some 20)))) = 2%nat
  /\ (3 < List.length (calls (googleSearchHandler Sample.hostname Sample.same_page Sample.env
                                (mkSearch (Some "Engineer") None None))))%nat.
Proof.
  split; [| split].
  - apply (proj1 (search_call_count Sample.hostname Sample.same_page Sample.env
                    (mkSearch (Some "Engineer") None (Some 7)) eq_refl eq_refl)).
    simpl. lia.
  - assert (H : 10 < 20 <= 20) by lia.
    apply (proj2 (proj1 (proj2 (search_call_count Sample.hostname Sample.five_in_all
                                  Sample.env (mkSearch (Some "Engineer") None (Some 20))
                                  eq_refl eq_refl)) H)).
    exists Sample.short_page,
      [Sample.result; Sample.result; Sample.result; Sample.result; Sample.result].
    split; [reflexivity |]. split; [discriminate |]. split; [reflexivity |].
    simpl. lia.
  - apply (proj2 (proj2 (search_call_count Sample.hostname Sample.same_page Sample.env
                           (mkSearch (Some "Engineer") None None) eq_refl eq_refl))
             2%nat (params_at "api-key" "engine-id" (Some "Engineer") None 2)).
    + vm_compute. reflexivity.
    + split; [| split].
      * exists Sample.short_page,
          [Sample.result; Sample.result; Sample.result; Sample.result; Sample.result].
        split; [reflexivity |]. split; [discriminate | reflexivity].
      * vm_compute. reflexivity.
      * vm_compute. reflexivity.
Defined.

(** C1 as stated fails: the first page holds five items, fewer than ten, and
    the handler still issues the second call. *)
Lemma short_page_does_not_stop :
  Sample.five_in_all (params_at "api-key" "engine-id" (Some "Engineer") None 0)
    = inr (Some Sample.short_page)
  /\ (List.length Sample.short_page < 10)%nat
  /\ calls (googleSearchHandler Sample.hostname Sample.five_in_all Sample.env
              (mkSearch (Some "Engineer") None (Some 20)))
     = [CustomSearch (params_at "api-key" "engine-id" (Some "Engineer") None 0);
        CustomSearch (params_at "api-key" "engine-id" (Some "Engineer") None 1)].
Proof.
  split; [reflexivity |]. split; [simpl; lia |]. vm_compute. reflexivity.
Qed.

(** C2 at maxResults 3 with pages of five items. *)
Lemma results_bounded_witness :
  sent (googleSearchHandler Sample.hostname Sample.same_page Sample.env
          (mkSearch (Some "Engineer") None (Some 3)))
    = json (Results [Sample.result; Sample.result; Sample.result])
  /\ Z.of_nat (List.length [Sample.result; Sample.result; Sample.result]) <= Z.max 0 3.
Proof.
  split.
  - vm_compute. reflexivity.
  - apply (results_bounded Sample.hostname Sample.same_page Sample.env
             (mkSearch (Some "Engineer") None (Some 3))).
    vm_compute. reflexivity.
Defined.

(** C2 as stated fails at maxResults -1: the handler answers with the empty
    list, whose length 0 is not at most -1. *)
Lemma negative_maxResults_exceeded :
  sent (googleSearchHandler Sample.hostname Sample.same_page Sample.env
          (mkSearch (Some "Engineer") None (Some (-1))))
    = json (Results [])
  /\ ~ (Z.of_nat (List.length (@nil jsval)) <= -1).
Proof.
  split; [vm_compute; reflexivity | simpl; lia].
Qed.

(** C3 with the write rejected by the service. *)
Lemma spreadsheet_failures_witness :
  sent (createSpreadsheetHandler Sample.parse Sample.create_ok Sample.update_rejected
          Sample.permission_ok Sample.env (mkSheetBody (VStr "T") [Sample.result]))
  = status_json 500 (Error (Message (UpstreamError "The caller does not have permission"))).
Proof.
  apply (proj2 (proj2 (spreadsheet_failures Sample.parse Sample.same_page Sample.create_ok
                         Sample.update_rejected Sample.permission_ok Sample.env
                         (mkSheetBody (VStr "T") [Sample.result])))
           (ValuesUpdate (jwt_of Sample.credentials)
              (mkUpdate "doc-1" "Job Listings!A1" "RAW"
                 (header_row :: map sheet_cells [Sample.result])))).
  - vm_compute. right. left. reflexivity.
  - reflexivity.
Defined.

(** C3 as stated fails: with a credentials text that is not JSON the answer
    carries the message of the parser's error, not a message that names the
    credential. *)
Lemma unparseable_credentials_message :
  Sample.parse "not json" = None
  /\ createSpreadsheetHandler Sample.parse Sample.create_ok Sample.update_ok
       Sample.permission_ok Sample.env_bad_credentials (mkSheetBody (VStr "T") [Sample.result])
     = Run [] (status_json 500 (Error (Message (SyntaxError "not json"))))
  /\ status_json 500 (Error (Message (SyntaxError "not json")))
     <> status_json 500 (Error (Text missing_sheets_credentials)).
Proof.
  split; [reflexivity |]. split; [vm_compute; reflexivity | discriminate].
Qed.

(** C4 with GOOGLE_API_KEY absent. *)
Lemma search_credentials_required_witness :
  googleSearchHandler Sample.hostname Sample.same_page Sample.env_without_key
    (mkSearch (Some "Engineer") None None)
  = Run [] (status_json 500 (Error (Text missing_search_credentials))).
Proof.
  apply (proj1 (search_credentials_required Sample.hostname Sample.same_page
                  Sample.env_without_key (mkSearch (Some "Engineer") None None)
                  (or_introl eq_refl))).
Defined.

(** C5 with bodies that hold a location only. *)
Lemma composite_requires_jobTitle_witness :
  post_search_to_spreadsheet Sample.hostname Sample.parse Sample.same_page
    Sample.create_ok Sample.update_ok Sample.permission_ok Sample.today Sample.env
    (mkS2S None (Some "Berlin") None None)
  = Run [] (status_json 400 (Error (Text missing_jobTitle)))
  /\ post_search_to_excel Sample.hostname Sample.encode Sample.accept_header Sample.same_page
       Sample.underscore_blanks Sample.env (mkS2E None (Some "Berlin") None None)
     = Run [] (status_json 400 (Error (Text missing_jobTitle))).
Proof.
  pose proof (composite_requires_jobTitle Sample.hostname Sample.parse Sample.encode Sample.accept_header
                Sample.same_page Sample.create_ok Sample.update_ok Sample.permission_ok
                Sample.today Sample.underscore_blanks Sample.env
                (mkS2S None (Some "Berlin") None None) (mkS2E None (Some "Berlin") None None)
                eq_refl eq_refl) as H.
  split; [exact (proj1 H) | exact (proj1 (proj2 H))].
Defined.

(** C6 with the data absent; with a one-element array; with a cell the
    encoder refuses; with a file name the response object refuses. *)
Lemma export_validation_witness :
  exportToExcelHandler Sample.encode Sample.accept_header (mkExcelBody VUndefined None)
    = Run [] (status_json 400 (Error (Text invalid_data_format)))
  /\ sent (exportToExcelHandler Sample.encode Sample.accept_header
             (mkExcelBody (VArr [Sample.listing_A]) None))
     = send (excel_headers "job_listings.xlsx"
               (Sample.encoded (header_row :: map excel_cells [Sample.listing_A])))
            (Sample.encoded (header_row :: map excel_cells [Sample.listing_A]))
  /\ sent (exportToExcelHandler Worlds.cell_limit_encoder Sample.accept_header
             (mkExcelBody (VArr [Worlds.long_listing]) None))
     = status_json 500
         (Error (Message (LibraryError "Text length must not exceed 32767 characters")))
  /\ exists name value,
       In (name, value)
          (excel_headers Worlds.two_line_name
             (Sample.encoded (header_row :: map excel_cells [Sample.listing_A])))
       /\ Worlds.no_line_feed name value = false
       /\ sent (exportToExcelHandler Sample.encode Worlds.no_line_feed
                  (mkExcelBody (VArr [Sample.listing_A]) (Some Worlds.two_line_name)))
          = status_json 500 (Error (Message (InvalidHeader name value))).
Proof.
  assert (HA : Forall (fun x => nullish x = false) [Sample.listing_A])
    by (repeat constructor).
  assert (HL : Forall (fun x => nullish x = false) [Worlds.long_listing])
    by (repeat constructor).
  split; [| split; [| split]].
  - apply (proj1 (export_validation Sample.encode Sample.accept_header
                    (mkExcelBody VUndefined None))).
    left. reflexivity.
  - destruct (proj1 (proj2 (export_validation Sample.encode Sample.accept_header
                              (mkExcelBody (VArr [Sample.listing_A]) None)))
                Sample.listing_A [] eq_refl HA) as (_ & _ & Hsend & _).
    apply Hsend; reflexivity.
  - destruct (proj1 (proj2 (export_validation Worlds.cell_limit_encoder Sample.accept_header
                              (mkExcelBody (VArr [Worlds.long_listing]) None)))
                Worlds.long_listing [] eq_refl HL) as (_ & Hthrow & _).
    apply Hthrow. vm_compute. reflexivity.
  - destruct (proj1 (proj2 (export_validation Sample.encode Worlds.no_line_feed
                              (mkExcelBody (VArr [Sample.listing_A])
                                 (Some Worlds.two_line_name))))
                Sample.listing_A [] eq_refl HA) as (_ & _ & _ & Hrefused).
    apply (Hrefused _ eq_refl).
    exists "Content-Disposition", (HStr ("attachment; filename=" ++ Worlds.two_line_name)).
    split; [right; left; reflexivity | reflexivity].
Defined.

(** C6 as stated fails: the array holding null is present, is an array and
    is not empty, and the handler answers with status 500. *)
Lemma null_element_fails :
  truthy (VArr [VNull]) = true
  /\ isArray (VArr [VNull]) = true
  /\ List.length (array_elems (VArr [VNull])) = 1%nat
  /\ exportToExcelHandler Sample.encode Sample.accept_header (mkExcelBody (VArr [VNull]) None)
     = Run [BookNew] (status_json 500 (Error (Message (NullishAccess VNull "title"))))
  /\ http_status (sent (exportToExcelHandler Sample.encode Sample.accept_header (mkExcelBody (VArr [VNull]) None)))
     = 500.
Proof.
  repeat split.
Qed.

(** C7 on a list of two results. *)
Lemma worksheet_rows_witness :
  exists rows,
    calls (exportToExcelHandler Sample.encode Sample.accept_header
             (mkExcelBody (VArr [Sample.listing_A; Sample.result]) None))
    = [BookNew; XlsxWrite (header_row :: rows)]
    /\ List.length rows = 2%nat
    /\ nth_error rows 1 = Some (excel_cells Sample.result).
Proof.
  assert (Hitems : Forall (fun x => nullish x = false) [Sample.listing_A; Sample.result])
    by (repeat constructor).
  destruct (proj2 (worksheet_rows Sample.encode Sample.accept_header None)
              (mkExcelBody (VArr [Sample.listing_A; Sample.result]) None)
              Sample.listing_A [Sample.result] eq_refl Hitems)
    as (rows & Hc & Hl & Hn).
  exists rows. split; [exact Hc |]. split; [exact Hl |].
  apply (Hn 1%nat). reflexivity.
Defined.

(** C8 with every call answered. *)
Lemma spreadsheet_created_witness :
  createSpreadsheetHandler Sample.parse Sample.create_ok Sample.update_ok
    Sample.permission_ok Sample.env (mkSheetBody (VStr "T") [Sample.result])
  = let auth := jwt_of Sample.credentials in
    Run [SpreadsheetsCreate auth (mkCreate (VStr "T") "Job Listings" 2 4);
         ValuesUpdate auth
           (mkUpdate "doc-1" "Job Listings!A1" "RAW"
              [header_row;
               [VStr "Looking for Engineer"; VStr Sample.listing_link;
                VStr "We are looking for an Engineer"; VStr "example.com"]]);
         PermissionsCreate auth (mkPermission "doc-1" "writer" "anyone")]
        (json (Spreadsheet "doc-1"
                 "https://docs.google.com/spreadsheets/d/doc-1/edit?usp=sharing" 1)).
Proof.
  assert (Hitems : Forall (fun x => nullish x = false) [Sample.result])
    by (repeat constructor).
  apply (proj1 (spreadsheet_created Sample.parse Sample.create_ok Sample.update_ok
                  Sample.permission_ok Sample.env (mkSheetBody (VStr "T") [Sample.result])
                  Sample.credentials "doc-1" eq_refl eq_refl Hitems
                  eq_refl eq_refl eq_refl)).
Defined.

(** C9 with an empty body. *)
Lemma search_without_jobTitle_witness :
  exists p rest,
    calls (post_api_search Sample.hostname Sample.same_page Sample.env
             (mkSearch None None None))
    = CustomSearch p :: rest
    /\ start p = 1
    /\ contains "Looking for undefined" (q p) = true.
Proof.
  apply (proj1 (proj2 (proj2 (proj2
           (search_without_jobTitle Sample.hostname Sample.parse Sample.encode Sample.accept_header
              Sample.same_page Sample.create_ok Sample.update_ok Sample.permission_ok
              Sample.today Sample.underscore_blanks Sample.env (mkSearch None None None)
              eq_refl))))).
  - reflexivity.
  - reflexivity.
  - simpl. lia.
Defined.

(** C10 at maxResults 0. *)
Lemma nonpositive_maxResults_witness :
  googleSearchHandler Sample.hostname Sample.same_page Sample.env
    (mkSearch (Some "Engineer") None (Some 0))
  = Run [] (json (Results [])).
Proof.
  assert (H : default_maxResults (Some 0) <= 0) by (simpl; lia).
  apply (proj1 (nonpositive_maxResults Sample.hostname Sample.same_page Sample.env
                  (mkSearch (Some "Engineer") None (Some 0)) eq_refl eq_refl H)).
Defined.

(** ** Instances of the further properties *)

(** X2 at the third call of a request without maxResults. *)
Lemma search_calls_paged_witness :
  nth_error (calls (googleSearchHandler Sample.hostname Sample.same_page Sample.env
                      (mkSearch (Some "Engineer") None None))) 2
    = Some (CustomSearch (mkParams "api-key" "engine-id"
                            (search_query (Some "Engineer") None) 10 21))
  /\ CustomSearch (mkParams "api-key" "engine-id" (search_query (Some "Engineer") None) 10 21)
     = CustomSearch (mkParams "api-key" "engine-id"
                       (search_query (Some "Engineer") None) 10 (10 * Z.of_nat 2 + 1)).
Proof.
  split.
  - vm_compute. reflexivity.
  - apply (search_calls_paged Sample.hostname Sample.same_page Sample.env
             (mkSearch (Some "Engineer") None None) 2%nat).
    vm_compute. reflexivity.
Defined.

(** X3 with the second call rejected. *)
Lemma search_rejection_ends_witness :
  sent (googleSearchHandler Sample.hostname Worlds.quota_after_first Sample.env
          (mkSearch (Some "Engineer") None (Some 20)))
  = status_json 500 (Error (Message (UpstreamError "Quota exceeded"))).
Proof.
  apply (proj1 (search_rejection_ends Sample.hostname Worlds.quota_after_first
                  Sample.create_ok Sample.update_ok Sample.permission_ok Sample.env
                  (mkSearch (Some "Engineer") None (Some 20))
                  (CustomSearch (params_at "api-key" "engine-id" (Some "Engineer") None 1))
                  "Quota exceeded"
                  (or_intror (or_introl eq_refl)) eq_refl)).
Defined.

(** X4 at maxResults 3. *)
Lemma search_results_are_listings_witness :
  Forall (listing_result Sample.hostname) [Sample.result; Sample.result; Sample.result].
Proof.
  apply (search_results_are_listings Sample.hostname Sample.same_page Sample.env
           (mkSearch (Some "Engineer") None (Some 3))).
  vm_compute. reflexivity.
Defined.

(** X5 at maxResults 3 with a page of five items. *)
Lemma search_results_in_order_witness :
  [Sample.result; Sample.result; Sample.result]
  = firstn 3 (gathered Sample.hostname Sample.same_page
                (calls (googleSearchHandler Sample.hostname Sample.same_page Sample.env
                          (mkSearch (Some "Engineer") None (Some 3))))).
Proof.
  assert (H : sent (googleSearchHandler Sample.hostname Sample.same_page Sample.env
                      (mkSearch (Some "Engineer") None (Some 3)))
              = json (Results [Sample.result; Sample.result; Sample.result]))
    by (vm_compute; reflexivity).
  assert (R : 0 <= 3 <= 5) by lia.
  exact (proj1 (proj2 (search_results_in_order Sample.hostname Sample.same_page Sample.env
                         (mkSearch (Some "Engineer") None (Some 3)) _ H) R)).
Defined.

(** X6 at maxResults 25: three calls, twenty-five results. *)
Lemma search_full_pages_witness :
  exists rs,
    sent (googleSearchHandler Sample.hostname Worlds.full_pages Sample.env
            (mkSearch (Some "Engineer") None (Some 25))) = json (Results rs)
    /\ Z.of_nat (List.length rs) = 25.
Proof.
  assert (Hm : 1 <= default_maxResults (Some 25)) by (simpl; lia).
  apply (proj2 (search_full_pages Sample.hostname Worlds.full_pages Sample.env
                  (mkSearch (Some "Engineer") None (Some 25)) eq_refl eq_refl Hm
                  (fun p => ex_intro _ Worlds.full_page
                              (ex_intro _ (repeat Sample.result 10)
                                 (conj eq_refl (conj eq_refl eq_refl)))))).
Defined.

(** X7 with a second page that holds a link that is not a URL. *)
Lemma search_unusable_item_witness :
  exists e,
    sent (googleSearchHandler Sample.hostname Worlds.broken_on_second Sample.env
            (mkSearch (Some "Engineer") None (Some 20)))
    = status_json 500 (Error (Message e)).
Proof.
  assert (Hex : Exists (unusable_item Sample.hostname) Worlds.broken_page).
  { apply Exists_cons_tl, Exists_cons_hd. right. reflexivity. }
  apply (proj1 (search_unusable_item Sample.hostname Worlds.broken_on_second Sample.env
                  (mkSearch (Some "Engineer") None (Some 20))
                  (params_at "api-key" "engine-id" (Some "Engineer") None 1)
                  Worlds.broken_page
                  (or_intror (or_introl eq_refl)) eq_refl Hex)).
Defined.

(** X8 with a search API that finds nothing. *)
Lemma search_nothing_found_witness :
  googleSearchHandler Sample.hostname Worlds.nothing_found Sample.env
    (mkSearch (Some "Engineer") None None)
  = Run [CustomSearch (params_at "api-key" "engine-id" (Some "Engineer") None 0)]
        (json (Results [])).
Proof.
  assert (Hm : 1 <= default_maxResults None) by (simpl; lia).
  apply (search_nothing_found Sample.hostname Worlds.nothing_found Sample.env
           (mkSearch (Some "Engineer") None None) eq_refl eq_refl Hm (or_introl eq_refl)).
Defined.

(** X9 with the permission rejected: it is the last call. *)
Lemma spreadsheet_rejection_ends_witness :
  exists before,
    calls (createSpreadsheetHandler Sample.parse Sample.create_ok Sample.update_ok
             Worlds.permission_rejected Sample.env (mkSheetBody (VStr "T") [Sample.result]))
    = before ++ [PermissionsCreate (jwt_of Sample.credentials)
                   (mkPermission "doc-1" "writer" "anyone")].
Proof.
  apply (spreadsheet_rejection_ends Sample.parse Sample.same_page Sample.create_ok
           Sample.update_ok Worlds.permission_rejected Sample.env
           (mkSheetBody (VStr "T") [Sample.result])
           (PermissionsCreate (jwt_of Sample.credentials)
              (mkPermission "doc-1" "writer" "anyone"))
           "Sharing is disabled"
           (or_intror (or_intror (or_introl eq_refl))) eq_refl).
Defined.

(** X10 with every call answered: the permission targets the created document. *)
Lemma spreadsheet_calls_target_created_witness :
  exists create u,
    calls (createSpreadsheetHandler Sample.parse Sample.create_ok Sample.update_ok
             Sample.permission_ok Sample.env (mkSheetBody (VStr "T") [Sample.result]))
    = [SpreadsheetsCreate (jwt_of Sample.credentials) create;
       ValuesUpdate (jwt_of Sample.credentials) u;
       PermissionsCreate (jwt_of Sample.credentials)
         (mkPermission "doc-1" "writer" "anyone")]
    /\ Sample.create_ok (jwt_of Sample.credentials) create = inr "doc-1"
    /\ upd_spreadsheetId u = "doc-1".
Proof.
  destruct (proj2 (spreadsheet_calls_target_created Sample.parse Sample.create_ok
                     Sample.update_ok Sample.permission_ok Sample.env
                     (mkSheetBody (VStr "T") [Sample.result]) (jwt_of Sample.credentials))
              (mkPermission "doc-1" "writer" "anyone")
              (or_intror (or_intror (or_introl eq_refl))))
    as (create & u & Hlog & Hc & Hu & _).
  exists create, u. split; [exact Hlog |]. split; [exact Hc | exact Hu].
Defined.

(** X11 with a result list that holds null. *)
Lemma spreadsheet_null_element_witness :
  exists v,
    createSpreadsheetHandler Sample.parse Sample.create_ok Sample.update_ok
      Sample.permission_ok Sample.env (mkSheetBody (VStr "T") [Sample.result; VNull])
    = Run [SpreadsheetsCreate (jwt_of Sample.credentials)
             (mkCreate (VStr "T") "Job Listings" 3 4)]
          (status_json 500 (Error (Message (NullishAccess v "title")))).
Proof.
  assert (Hex : Exists (fun item => nullish item = true) [Sample.result; VNull]).
  { apply Exists_cons_tl, Exists_cons_hd. reflexivity. }
  apply (spreadsheet_null_element Sample.parse Sample.create_ok Sample.update_ok
           Sample.permission_ok Sample.env (mkSheetBody (VStr "T") [Sample.result; VNull])
           Sample.credentials "doc-1" eq_refl eq_refl eq_refl Hex).
Defined.

(** X12 on a result without title and snippet. *)
Lemma excel_worksheet_shape_witness :
  exists data_rows,
    [header_row; [VStr ""; VStr "http://x.com/1"; VStr ""; VStr "x.com"]]
    = header_row :: data_rows
    /\ List.length data_rows = 1%nat
    /\ Forall (fun row => List.length row = 4%nat /\ Forall filled_cell row) data_rows.
Proof.
  apply (excel_worksheet_shape Sample.encode Sample.accept_header
           (mkExcelBody (VArr [VObj [("link", VStr "http://x.com/1");
                                     ("source", VStr "x.com")]]) None)
           [header_row; [VStr ""; VStr "http://x.com/1"; VStr ""; VStr "x.com"]]).
  vm_compute. right. left. reflexivity.
Defined.

(** X13 with a search API that finds nothing. *)
Lemma search_to_excel_no_results_witness :
  post_search_to_excel Sample.hostname Sample.encode Sample.accept_header Worlds.nothing_found
    Sample.underscore_blanks Sample.env (mkS2E (Some "Engineer") None None None)
  = Run [CustomSearch (params_at "api-key" "engine-id" (Some "Engineer") None 0)]
        (status_json 400 (Error (Text invalid_data_format))).
Proof.
  apply (search_to_excel_no_results Sample.hostname Sample.encode Sample.accept_header Worlds.nothing_found
           Sample.underscore_blanks Sample.env (mkS2E (Some "Engineer") None None None)
           eq_refl eq_refl).
Defined.

(** X14 with a search API that rejects the second call. *)
Lemma composite_search_failure_witness :
  sent (post_search_to_spreadsheet Sample.hostname Sample.parse Worlds.quota_after_first
          Sample.create_ok Sample.update_ok Sample.permission_ok Sample.today Sample.env
          (mkS2S (Some "Engineer") None (Some 20) None))
    = status_json 500 (Error (Message (UpstreamError "Quota exceeded")))
  /\ sent (post_search_to_excel Sample.hostname Sample.encode Sample.accept_header Worlds.quota_after_first
             Sample.underscore_blanks Sample.env
             (mkS2E (Some "Engineer") None (Some 20) None))
     = status_json 500 (Error (Message (UpstreamError "Quota exceeded"))).
Proof.
  pose proof (composite_search_failure Sample.hostname Sample.parse Sample.encode Sample.accept_header
                Worlds.quota_after_first Sample.create_ok Sample.update_ok
                Sample.permission_ok Sample.today Sample.underscore_blanks Sample.env
                (mkS2S (Some "Engineer") None (Some 20) None)
                (mkS2E (Some "Engineer") None (Some 20) None)
                (CustomSearch (params_at "api-key" "engine-id" (Some "Engineer") None 1))
                "Quota exceeded" eq_refl) as [H1 H2].
  split.
  - apply (proj1 (H1 eq_refl (or_intror (or_introl eq_refl)))).
  - apply (proj1 (H2 eq_refl (or_intror (or_introl eq_refl)))).
Defined.

(** X15 at maxResults 3 with a body that names the file, and with a result
    whose snippet the encoder refuses. *)
Lemma search_to_excel_sends_witness :
  (let rows := header_row :: map excel_cells [Sample.result; Sample.result; Sample.result] in
   post_search_to_excel Sample.hostname Sample.encode Sample.accept_header Sample.same_page
     Sample.underscore_blanks Sample.env
     (mkS2E (Some "Engineer") None (Some 3) (Some "engineers.xlsx"))
   = Run [CustomSearch (params_at "api-key" "engine-id" (Some "Engineer") None 0);
          BookNew; XlsxWrite rows]
         (send (excel_headers "engineers.xlsx" (Sample.encoded rows)) (Sample.encoded rows)))
  /\ sent (post_search_to_excel Sample.hostname Worlds.cell_limit_encoder
             Sample.accept_header Worlds.long_snippet Sample.underscore_blanks Sample.env
             (mkS2E (Some "Engineer") None (Some 1) None))
     = status_json 500
         (Error (Message (LibraryError "Text length must not exceed 32767 characters"))).
Proof.
  split.
  - assert (H : sent (s2e_search Sample.hostname Sample.same_page Sample.env
                        (mkS2E (Some "Engineer") None (Some 3) (Some "engineers.xlsx")))
                = json (Results [Sample.result; Sample.result; Sample.result]))
      by (vm_compute; reflexivity).
    destruct (search_to_excel_sends Sample.hostname Sample.encode Sample.accept_header
                Sample.same_page Sample.underscore_blanks Sample.env
                (mkS2E (Some "Engineer") None (Some 3) (Some "engineers.xlsx"))
                Sample.result [Sample.result; Sample.result] eq_refl H)
      as (Hcalls & Hsend & _).
    cbv zeta.
    specialize (Hsend _ eq_refl (fun name value _ => eq_refl)).
    destruct (post_search_to_excel _ _ _ _ _ _ _) as [log answer].
    cbn [calls sent] in Hcalls, Hsend. rewrite Hcalls, Hsend. reflexivity.
  - assert (H : sent (s2e_search Sample.hostname Worlds.long_snippet Sample.env
                        (mkS2E (Some "Engineer") None (Some 1) None))
                = json (Results [Worlds.long_result])) by reflexivity.
    destruct (search_to_excel_sends Sample.hostname Worlds.cell_limit_encoder
                Sample.accept_header Worlds.long_snippet Sample.underscore_blanks Sample.env
                (mkS2E (Some "Engineer") None (Some 1) None)
                Worlds.long_result [] eq_refl H)
      as (_ & _ & Hthrow).
    apply Hthrow. vm_compute. reflexivity.
Defined.

(** X18 with a search that finds nothing: a document with the header row only. *)
Lemma search_to_spreadsheet_summary_witness :
  post_search_to_spreadsheet Sample.hostname Sample.parse Worlds.nothing_found
    Sample.create_ok Sample.update_ok Sample.permission_ok Sample.today Sample.env
    (mkS2S (Some "Engineer") None None (Some "Engineers"))
  = let auth := jwt_of Sample.credentials in
    Run [CustomSearch (params_at "api-key" "engine-id" (Some "Engineer") None 0);
         SpreadsheetsCreate auth (mkCreate (VStr "Engineers") "Job Listings" 1 4);
         ValuesUpdate auth (mkUpdate "doc-1" "Job Listings!A1" "RAW" [header_row]);
         PermissionsCreate auth (mkPermission "doc-1" "writer" "anyone")]
        (json (Summary "Search and spreadsheet creation successful" "Engineer"
                 "Any location" 0 "doc-1"
                 "https://docs.google.com/spreadsheets/d/doc-1/edit?usp=sharing")).
Proof.
  assert (H : sent (s2s_search Sample.hostname Worlds.nothing_found Sample.env
                      (mkS2S (Some "Engineer") None None (Some "Engineers")))
              = json (Results [])) by (vm_compute; reflexivity).
  exact (search_to_spreadsheet_summary Sample.hostname Sample.parse Worlds.nothing_found
           Sample.create_ok Sample.update_ok Sample.permission_ok Sample.today Sample.env
           (mkS2S (Some "Engineer") None None (Some "Engineers")) []
           Sample.credentials "doc-1" eq_refl H eq_refl eq_refl eq_refl eq_refl eq_refl).
Defined.
